(** * HC-SR04 ultrasonic ranging driver (HCSR04.cpp)

    A shallow embedding of the driver of the Blind_Guidance repository:
    pin configuration, the blocking measurement, the unit conversions and
    the pin-change-interrupt driven non-blocking measurement.

    Target: AVR (the non-blocking half is written against the AVR pin
    change interrupt registers), so [unsigned int] is 16 bits wide,
    [long] and [unsigned long] are 32 bits wide and [uint8_t] is 8 bits
    wide.  Every integer is a [Z] and every wrap-around is written out. *)

From Stdlib Require Import String.
From Stdlib Require Import ZArith List Bool Lia.
Import ListNotations.
Local Open Scope Z_scope.

(** ** Machine integers of the target *)

Module CInt.

Definition two8 : Z := 256.
Definition two16 : Z := 65536.
Definition two31 : Z := 2147483648.
Definition two32 : Z := 4294967296.

(** Conversion to [uint8_t]. *)
Definition to_u8 (x : Z) : Z := x mod two8.

(** Conversion to [unsigned int]. *)
Definition to_uint (x : Z) : Z := x mod two16.

(** Conversion to [unsigned long]. *)
Definition to_ulong (x : Z) : Z := x mod two32.

(** Conversion to (signed) [long], two's complement. *)
Definition to_long (x : Z) : Z := (x + two31) mod two32 - two31.

(** [~x] on an [unsigned long]. *)
Definition ulong_not (x : Z) : Z := Z.lxor (to_ulong x) (Z.ones 32).

(** Arduino.h: [#define bit(b) (1UL << (b))]. *)
Definition bit (b : Z) : Z := to_ulong (Z.shiftl 1 b).

End CInt.
Import CInt.

(** ** Unit conversions (pure) *)

(** [unsigned int getCentimeterFromUSMicroSeconds(unsigned int aDistanceMicros)]:
    [return (aDistanceMicros * 100L) / 5825;]
    The parameter is an [unsigned int]; the product and the quotient are
    computed in [long], the result is converted back to [unsigned int]. *)
Definition getCentimeterFromUSMicroSeconds (aDistanceMicros : Z) : Z :=
  to_uint (Z.quot (to_long (to_long aDistanceMicros * 100)) 5825).

(** The local [tTimeoutMicros] of
    [getUSDistanceAsCentiMeterWithCentimeterTimeout]:
    [unsigned int tTimeoutMicros = ((aTimeoutCentimeter * 233L) + 2) / 4;]
    computed in [long], stored in an [unsigned int]. *)
Definition tTimeoutMicros (aTimeoutCentimeter : Z) : Z :=
  to_uint (Z.quot (to_long (to_long (to_long aTimeoutCentimeter * 233) + 2)) 4).

(** The value assigned to the global [sTimeoutMicros] by
    [startUSDistanceAsCentiMeterWithCentimeterTimeoutNonBlocking]:
    [sTimeoutMicros = ((aTimeoutCentimeter * 233) + 2) / 4;]
    here [233], [2] and [4] are [int], so the whole expression is
    computed in [unsigned int]. *)
Definition nonBlockingTimeoutMicros (aTimeoutCentimeter : Z) : Z :=
  to_uint (to_uint (to_uint (aTimeoutCentimeter * 233) + 2) / 4).

(** The two conversions as the specification words them, on unbounded
    integers; the code is compared with them below. *)
Definition microsecondsToCentimeters (durationMicros : Z) : Z :=
  durationMicros * 100 / 5825.

Definition centimetersToTimeoutMicros (timeoutCentimeters : Z) : Z :=
  (timeoutCentimeters * 233 + 2) / 4.

(** ** The hardware seen by the driver *)

Inductive PinLevel : Type := LOW | HIGH.

Inductive PinDirection : Type := INPUT | OUTPUT.

(** The pin change interrupt registers of the AVR; [NULLREG] stands for
    the null pointer that [digitalPinToPCMSK] yields for a pin without
    pin change interrupt. *)
Inductive Reg : Type := PCMSK0 | PCMSK1 | PCMSK2 | PCICR | PCIFR | NULLREG.

Definition Reg_eqb (a b : Reg) : bool :=
  match a, b with
  | PCMSK0, PCMSK0 | PCMSK1, PCMSK1 | PCMSK2, PCMSK2
  | PCICR, PCICR | PCIFR, PCIFR | NULLREG, NULLREG => true
  | _, _ => false
  end.

(** Every access of the hardware is recorded, in program order. *)
Inductive Event : Type :=
| DigitalWrite (pin : Z) (level : PinLevel)
| PinMode (pin : Z) (direction : PinDirection)
| DelayMicroseconds (us : Z)
| NoInterrupts
| Interrupts
| PulseIn (pin : Z) (level : PinLevel) (timeout : Z)
| PulseInLong (pin : Z) (level : PinLevel) (timeout : Z)
| RegWrite (r : Reg) (value : Z).

Definition Event_eq_dec (a b : Event) : {a = b} + {a <> b}.
Proof.
  decide equality; try apply Z.eq_dec; decide equality.
Defined.

Definition Event_eqb (a b : Event) : bool :=
  if Event_eq_dec a b then true else false.

(** The pin mapping macros of the Arduino core ([pins_arduino.h]) and the
    preprocessor choice between [pulseInLong] and [pulseIn] made in
    [getUSDistance]; they belong to the board, not to the driver, and
    are a parameter of the model. *)
Record Board : Type := mkBoard {
  digitalPinToPCMSK : Z -> Reg;
  digitalPinToPCMSKbit : Z -> Z;
  digitalPinToPCICRbit : Z -> Z;
  usesPulseInLong : bool
}.

(** The mapping of the ATmega328P boards (pins D0..D7 on PCMSK2, D8..D13
    on PCMSK0, A0..A5 on PCMSK1), used for the concrete runs below. *)
Definition atmega328p : Board := {|
  digitalPinToPCMSK := fun p =>
    if p <=? 7 then PCMSK2 else if p <=? 13 then PCMSK0
    else if p <=? 21 then PCMSK1 else NULLREG;
  digitalPinToPCMSKbit := fun p =>
    if p <=? 7 then p else if p <=? 13 then p - 8 else p - 14;
  digitalPinToPCICRbit := fun p =>
    if p <=? 7 then 2 else if p <=? 13 then 0 else 1;
  usesPulseInLong := true
|}.

(** Modelled from the spec: HCSR04.h, which defines the three mode
    constants [HCSR04_MODE_UNITITIALIZED], [HCSR04_MODE_USE_1_PIN] and
    [HCSR04_MODE_USE_2_PINS], is not among the sources; the specification
    gives the mode as the enumeration {Uninitialized, OnePin, TwoPin}. *)
Inductive SensorMode : Type :=
| HCSR04_MODE_UNITITIALIZED
| HCSR04_MODE_USE_1_PIN
| HCSR04_MODE_USE_2_PINS.

(** ** State: the globals of HCSR04.cpp and the hardware *)

Record Sys : Type := mkSys {
  (* globals of the driver *)
  sTriggerOutPin : Z;
  sEchoInPin : Z;
  sHCSR04Mode : SensorMode;
  sUSDistanceCentimeter : Z;
  sUSPulseMicros : Z;
  sUSValueIsValid : bool;
  sMicrosAtStartOfPulse : Z;
  sTimeoutMicros : Z;
  (* hardware *)
  clock : Z;                 (* the microsecond counter behind micros() *)
  regs : Reg -> Z;           (* the interrupt registers *)
  echoPulses : list Z;       (* what the coming pulseIn calls will measure *)
  trace : list Event         (* hardware accesses so far, oldest first *)
}.

Definition set_sTriggerOutPin (v : Z) (s : Sys) : Sys :=
  mkSys v (sEchoInPin s) (sHCSR04Mode s) (sUSDistanceCentimeter s)
    (sUSPulseMicros s) (sUSValueIsValid s) (sMicrosAtStartOfPulse s)
    (sTimeoutMicros s) (clock s) (regs s) (echoPulses s) (trace s).

Definition set_sEchoInPin (v : Z) (s : Sys) : Sys :=
  mkSys (sTriggerOutPin s) v (sHCSR04Mode s) (sUSDistanceCentimeter s)
    (sUSPulseMicros s) (sUSValueIsValid s) (sMicrosAtStartOfPulse s)
    (sTimeoutMicros s) (clock s) (regs s) (echoPulses s) (trace s).

Definition set_sHCSR04Mode (v : SensorMode) (s : Sys) : Sys :=
  mkSys (sTriggerOutPin s) (sEchoInPin s) v (sUSDistanceCentimeter s)
    (sUSPulseMicros s) (sUSValueIsValid s) (sMicrosAtStartOfPulse s)
    (sTimeoutMicros s) (clock s) (regs s) (echoPulses s) (trace s).

Definition set_sUSDistanceCentimeter (v : Z) (s : Sys) : Sys :=
  mkSys (sTriggerOutPin s) (sEchoInPin s) (sHCSR04Mode s) v
    (sUSPulseMicros s) (sUSValueIsValid s) (sMicrosAtStartOfPulse s)
    (sTimeoutMicros s) (clock s) (regs s) (echoPulses s) (trace s).

Definition set_sUSPulseMicros (v : Z) (s : Sys) : Sys :=
  mkSys (sTriggerOutPin s) (sEchoInPin s) (sHCSR04Mode s)
    (sUSDistanceCentimeter s) v (sUSValueIsValid s)
    (sMicrosAtStartOfPulse s) (sTimeoutMicros s) (clock s) (regs s)
    (echoPulses s) (trace s).

Definition set_sUSValueIsValid (v : bool) (s : Sys) : Sys :=
  mkSys (sTriggerOutPin s) (sEchoInPin s) (sHCSR04Mode s)
    (sUSDistanceCentimeter s) (sUSPulseMicros s) v
    (sMicrosAtStartOfPulse s) (sTimeoutMicros s) (clock s) (regs s)
    (echoPulses s) (trace s).

Definition set_sMicrosAtStartOfPulse (v : Z) (s : Sys) : Sys :=
  mkSys (sTriggerOutPin s) (sEchoInPin s) (sHCSR04Mode s)
    (sUSDistanceCentimeter s) (sUSPulseMicros s) (sUSValueIsValid s) v
    (sTimeoutMicros s) (clock s) (regs s) (echoPulses s) (trace s).

Definition set_sTimeoutMicros (v : Z) (s : Sys) : Sys :=
  mkSys (sTriggerOutPin s) (sEchoInPin s) (sHCSR04Mode s)
    (sUSDistanceCentimeter s) (sUSPulseMicros s) (sUSValueIsValid s)
    (sMicrosAtStartOfPulse s) v (clock s) (regs s) (echoPulses s) (trace s).

Definition set_clock (v : Z) (s : Sys) : Sys :=
  mkSys (sTriggerOutPin s) (sEchoInPin s) (sHCSR04Mode s)
    (sUSDistanceCentimeter s) (sUSPulseMicros s) (sUSValueIsValid s)
    (sMicrosAtStartOfPulse s) (sTimeoutMicros s) v (regs s) (echoPulses s)
    (trace s).

Definition set_regs (v : Reg -> Z) (s : Sys) : Sys :=
  mkSys (sTriggerOutPin s) (sEchoInPin s) (sHCSR04Mode s)
    (sUSDistanceCentimeter s) (sUSPulseMicros s) (sUSValueIsValid s)
    (sMicrosAtStartOfPulse s) (sTimeoutMicros s) (clock s) v (echoPulses s)
    (trace s).

Definition set_echoPulses (v : list Z) (s : Sys) : Sys :=
  mkSys (sTriggerOutPin s) (sEchoInPin s) (sHCSR04Mode s)
    (sUSDistanceCentimeter s) (sUSPulseMicros s) (sUSValueIsValid s)
    (sMicrosAtStartOfPulse s) (sTimeoutMicros s) (clock s) (regs s) v
    (trace s).

Definition set_trace (v : list Event) (s : Sys) : Sys :=
  mkSys (sTriggerOutPin s) (sEchoInPin s) (sHCSR04Mode s)
    (sUSDistanceCentimeter s) (sUSPulseMicros s) (sUSValueIsValid s)
    (sMicrosAtStartOfPulse s) (sTimeoutMicros s) (clock s) (regs s)
    (echoPulses s) v.

(** ** A state monad for the imperative code *)

Definition M (A : Type) : Type := Sys -> A * Sys.

Definition ret {A : Type} (a : A) : M A := fun s => (a, s).

Definition bind {A B : Type} (m : M A) (k : A -> M B) : M B :=
  fun s => let (a, s') := m s in k a s'.

Declare Scope drv_scope.
Delimit Scope drv_scope with drv.
Notation "x <- m ;; k" := (bind m (fun x => k))
  (at level 61, m at next level, right associativity) : drv_scope.
Notation "m ;; k" := (bind m (fun _ => k))
  (at level 61, right associativity) : drv_scope.
Local Open Scope drv_scope.

Definition read {A : Type} (f : Sys -> A) : M A := fun s => (f s, s).

Definition modify (f : Sys -> Sys) : M unit := fun s => (tt, f s).

Definition exec {A : Type} (m : M A) (s : Sys) : Sys := snd (m s).

Definition eval {A : Type} (m : M A) (s : Sys) : A := fst (m s).

(** ** The Arduino primitives the driver calls *)

Definition emit (e : Event) : M unit :=
  modify (fun s => set_trace (trace s ++ [e]) s).

Definition digitalWrite (pin : Z) (level : PinLevel) : M unit :=
  emit (DigitalWrite pin level).

Definition pinMode (pin : Z) (direction : PinDirection) : M unit :=
  emit (PinMode pin direction).

(** Busy waiting moves the microsecond counter on. *)
Definition delayMicroseconds (us : Z) : M unit :=
  modify (fun s => set_clock (to_ulong (clock s + us)) s) ;;
  emit (DelayMicroseconds us).

(** [micros()]: the current value of the 32 bit microsecond counter. *)
Definition now (s : Sys) : Z := to_ulong (clock s).

Definition micros : M Z := read now.

Definition noInterrupts : M unit := emit NoInterrupts.

Definition interrupts : M unit := emit Interrupts.

(** The width measured by [pulseIn] / [pulseInLong] is decided by the
    sensor: it is taken from [echoPulses]; 0 (the timeout value of both
    functions) when nothing is left. *)
Definition nextPulse : M Z :=
  fun s => match echoPulses s with
           | [] => (0, s)
           | p :: rest => (to_ulong p, set_echoPulses rest s)
           end.

Definition pulseIn (pin : Z) (level : PinLevel) (timeout : Z) : M Z :=
  emit (PulseIn pin level timeout) ;; nextPulse.

Definition pulseInLong (pin : Z) (level : PinLevel) (timeout : Z) : M Z :=
  emit (PulseInLong pin level timeout) ;; nextPulse.

Definition readReg (r : Reg) : M Z := read (fun s => regs s r).

Definition writeReg (r : Reg) (v : Z) : M unit :=
  modify (fun s =>
    set_regs (fun r' => if Reg_eqb r' r then v else regs s r') s) ;;
  emit (RegWrite r v).

(** Time passing between two activations of the driver (not driver
    code). *)
Definition elapse (d : Z) : M unit :=
  modify (fun s => set_clock (to_ulong (clock s + d)) s).

(** ** The driver *)

Section Driver.

Variable board : Board.

(** [void initUSDistancePins(uint8_t aTriggerOutPin, uint8_t aEchoInPin)] *)
Definition initUSDistancePins (aTriggerOutPin aEchoInPin : Z) : M unit :=
  modify (set_sTriggerOutPin aTriggerOutPin) ;;
  if aEchoInPin =? 0 then
    modify (set_sHCSR04Mode HCSR04_MODE_USE_1_PIN)
  else
    modify (set_sEchoInPin aEchoInPin) ;;
    pinMode aTriggerOutPin OUTPUT ;;
    echo <- read sEchoInPin ;;
    pinMode echo INPUT ;;
    modify (set_sHCSR04Mode HCSR04_MODE_USE_2_PINS).

(** [void initUSDistancePin(uint8_t aTriggerOutEchoInPin)] *)
Definition initUSDistancePin (aTriggerOutEchoInPin : Z) : M unit :=
  modify (set_sTriggerOutPin aTriggerOutEchoInPin) ;;
  modify (set_sHCSR04Mode HCSR04_MODE_USE_1_PIN).

(** [unsigned int getUSDistance(unsigned int aTimeoutMicros)]
    ([DEBUG] is not defined). *)
Definition getUSDistance (aTimeoutMicros : Z) : M Z :=
  mode <- read sHCSR04Mode ;;
  match mode with
  | HCSR04_MODE_UNITITIALIZED => ret 0
  | _ =>
    trigger <- read sTriggerOutPin ;;
    digitalWrite trigger HIGH ;;
    match mode with
    | HCSR04_MODE_USE_1_PIN => pinMode trigger OUTPUT
    | _ => ret tt
    end ;;
    delayMicroseconds 10 ;;
    digitalWrite trigger LOW ;;
    tEchoInPin <-
      match mode with
      | HCSR04_MODE_USE_1_PIN =>
        delayMicroseconds 20 ;;
        pinMode trigger INPUT ;;
        ret trigger
      | _ => read sEchoInPin
      end ;;
    tUSPulseMicros <-
      (if usesPulseInLong board then
         pulseInLong tEchoInPin HIGH aTimeoutMicros
       else
         noInterrupts ;;
         p <- pulseIn tEchoInPin HIGH aTimeoutMicros ;;
         interrupts ;;
         ret p) ;;
    ret (to_uint tUSPulseMicros)
  end.

(** [unsigned int getUSDistanceAsCentiMeter(unsigned int aTimeoutMicros)] *)
Definition getUSDistanceAsCentiMeter (aTimeoutMicros : Z) : M Z :=
  d <- getUSDistance aTimeoutMicros ;;
  ret (getCentimeterFromUSMicroSeconds d).

(** [unsigned int getUSDistanceAsCentiMeterWithCentimeterTimeout(unsigned int aTimeoutCentimeter)] *)
Definition getUSDistanceAsCentiMeterWithCentimeterTimeout
    (aTimeoutCentimeter : Z) : M Z :=
  getUSDistanceAsCentiMeter (tTimeoutMicros aTimeoutCentimeter).

(** [void handlePCInterrupt(uint8_t aPortState)] *)
Definition handlePCInterrupt (aPortState : Z) : M unit :=
  if 0 <? aPortState then
    t <- micros ;;
    modify (set_sMicrosAtStartOfPulse t)
  else
    t <- micros ;;
    start <- read sMicrosAtStartOfPulse ;;
    modify (set_sUSPulseMicros (to_ulong (t - start))) ;;
    modify (set_sUSValueIsValid true).

(** The three interrupt service routines ([PCINT0_vect], [PCINT1_vect],
    [PCINT2_vect]) share one body; [portInput] is the value read from
    the port input register of the echo pin. *)
Definition ISR_PCINT (portInput : Z) : M unit :=
  echo <- read sEchoInPin ;;
  handlePCInterrupt
    (to_u8 (Z.land portInput (bit (digitalPinToPCMSKbit board echo)))).

(** [void startUSDistanceAsCentiMeterWithCentimeterTimeoutNonBlocking(unsigned int aTimeoutCentimeter)]
    ([DEBUG] is not defined). *)
Definition startUSDistanceAsCentiMeterWithCentimeterTimeoutNonBlocking
    (aTimeoutCentimeter : Z) : M unit :=
  trigger <- read sTriggerOutPin ;;
  digitalWrite trigger HIGH ;;
  modify (set_sUSValueIsValid false) ;;
  modify (set_sTimeoutMicros (nonBlockingTimeoutMicros aTimeoutCentimeter)) ;;
  echo <- read sEchoInPin ;;
  pcmsk <- readReg (digitalPinToPCMSK board echo) ;;
  writeReg (digitalPinToPCMSK board echo)
    (to_u8 (Z.lor pcmsk (bit (digitalPinToPCMSKbit board echo)))) ;;
  pcicr <- readReg PCICR ;;
  writeReg PCICR (to_u8 (Z.lor pcicr (bit (digitalPinToPCICRbit board echo)))) ;;
  pcifr <- readReg PCIFR ;;
  writeReg PCIFR (to_u8 (Z.lor pcifr (bit (digitalPinToPCICRbit board echo)))) ;;
  modify (set_sUSPulseMicros 0) ;;
  modify (set_sMicrosAtStartOfPulse 0) ;;
  delayMicroseconds 10 ;;
  digitalWrite trigger LOW.

(** [bool isUSDistanceMeasureFinished()] *)
Definition isUSDistanceMeasureFinished : M bool :=
  valid <- read sUSValueIsValid ;;
  if valid then
    pulse <- read sUSPulseMicros ;;
    modify (set_sUSDistanceCentimeter
              (getCentimeterFromUSMicroSeconds (to_uint pulse))) ;;
    ret true
  else
    start <- read sMicrosAtStartOfPulse ;;
    if negb (start =? 0) then
      t <- micros ;;
      timeout <- read sTimeoutMicros ;;
      if timeout <=? to_ulong (t - start) then
        echo <- read sEchoInPin ;;
        pcmsk <- readReg (digitalPinToPCMSK board echo) ;;
        writeReg (digitalPinToPCMSK board echo)
          (to_u8 (Z.land pcmsk
                    (ulong_not (bit (digitalPinToPCMSKbit board echo))))) ;;
        ret true
      else ret false
    else ret false.

(** The poll as the caller uses it: the flag returned by
    [isUSDistanceMeasureFinished] together with the result it leaves
    in [sUSDistanceCentimeter]. *)
Definition pollMeasurement : M (bool * Z) :=
  done <- isUSDistanceMeasureFinished ;;
  cm <- read sUSDistanceCentimeter ;;
  ret (done, cm).

(** Whether the pin change interrupt of the echo pin is enabled in its
    mask register. *)
Definition echoInterruptEnabled (s : Sys) : bool :=
  Z.testbit (regs s (digitalPinToPCMSK board (sEchoInPin s)))
    (digitalPinToPCMSKbit board (sEchoInPin s)).

(** *** Runs of the non-blocking state machine *)

Inductive Step : Type :=
| StartMeasurement (aTimeoutCentimeter : Z)
| PinChange (aPortState : Z)   (* the ISR hands this to handlePCInterrupt *)
| Elapse (d : Z)
| Poll.

(** One step; a poll reports its outcome. *)
Definition step (st : Step) : M (option (bool * Z)) :=
  match st with
  | StartMeasurement c =>
    startUSDistanceAsCentiMeterWithCentimeterTimeoutNonBlocking c ;; ret None
  | PinChange p => handlePCInterrupt p ;; ret None
  | Elapse d => elapse d ;; ret None
  | Poll => r <- pollMeasurement ;; ret (Some r)
  end.

(** A run; the outcomes of its polls, oldest first. *)
Fixpoint run (sts : list Step) : M (list (bool * Z)) :=
  match sts with
  | [] => ret []
  | st :: rest =>
    o <- step st ;;
    os <- run rest ;;
    ret (match o with Some r => r :: os | None => os end)
  end.

(** Steps that neither restart the measurement nor report the end of a
    pulse. *)
Definition quiet (st : Step) : bool :=
  match st with
  | StartMeasurement _ => false
  | PinChange p => 0 <? p
  | Elapse _ => true
  | Poll => true
  end.

(** Steps other than interrupts. *)
Definition noEdge (st : Step) : bool :=
  match st with
  | PinChange _ => false
  | _ => true
  end.

End Driver.

(** ** Reading a trace *)

(** The hardware accesses made by [m] when started in [s]. *)
Definition effects {A : Type} (m : M A) (s : Sys) : list Event :=
  skipn (length (trace s)) (trace (exec m s)).

(** Position of the first occurrence of an event. *)
Fixpoint indexOf (e : Event) (tr : list Event) : option nat :=
  match tr with
  | [] => None
  | x :: rest =>
    if Event_eqb x e then Some O
    else match indexOf e rest with
         | Some n => Some (S n)
         | None => None
         end
  end.

Definition delayOf (e : Event) : Z :=
  match e with
  | DelayMicroseconds us => us
  | _ => 0
  end.

(** The busy waiting done before the first occurrence of [stop]. *)
Fixpoint delayUntil (stop : Event) (tr : list Event) : option Z :=
  match tr with
  | [] => None
  | x :: rest =>
    if Event_eqb x stop then Some 0
    else match delayUntil stop rest with
         | Some d => Some (delayOf x + d)
         | None => None
         end
  end.

(** The busy waiting done between the first occurrence of [from] and the
    next occurrence of [stop]. *)
Fixpoint delayBetween (from stop : Event) (tr : list Event) : option Z :=
  match tr with
  | [] => None
  | x :: rest =>
    if Event_eqb x from then delayUntil stop rest
    else delayBetween from stop rest
  end.

(** The hardware accesses of the pulse measurement that ends
    [getUSDistance], for either preprocessor branch. *)
Definition pulseEvents (board : Board) (pin timeout : Z) : list Event :=
  if usesPulseInLong board then [PulseInLong pin HIGH timeout]
  else [NoInterrupts; PulseIn pin HIGH timeout; Interrupts].

(** The trigger pin is driven high before it is made an output: the first
    write of HIGH comes strictly before the first switch to OUTPUT, and
    there is exactly one of each. *)
Definition highBeforeOutput (pin : Z) (tr : list Event) : Prop :=
  exists i j : nat,
    indexOf (DigitalWrite pin HIGH) tr = Some i /\
    indexOf (PinMode pin OUTPUT) tr = Some j /\
    (i < j)%nat /\
    count_occ Event_eq_dec tr (DigitalWrite pin HIGH) = 1%nat /\
    count_occ Event_eq_dec tr (PinMode pin OUTPUT) = 1%nat.

(** How long the trigger pin is held high: the busy waiting between the
    write of HIGH and the write of LOW. *)
Definition settleDelay (pin : Z) (tr : list Event) : option Z :=
  delayBetween (DigitalWrite pin HIGH) (DigitalWrite pin LOW) tr.

(** How long the pin is held low before it is switched to input. *)
Definition lowDelay (pin : Z) (tr : list Event) : option Z :=
  delayBetween (DigitalWrite pin LOW) (PinMode pin INPUT) tr.

(** ** Concrete states for the examples *)

(** The state after reset: globals zero-initialised, nothing recorded. *)
Definition powerOn : Sys := {|
  sTriggerOutPin := 0;
  sEchoInPin := 0;
  sHCSR04Mode := HCSR04_MODE_UNITITIALIZED;
  sUSDistanceCentimeter := 0;
  sUSPulseMicros := 0;
  sUSValueIsValid := false;
  sMicrosAtStartOfPulse := 0;
  sTimeoutMicros := 0;
  clock := 1000;
  regs := fun _ => 0;
  echoPulses := [5825; 2914];
  trace := []
|}.

(** The wiring of the application: trigger on pin 5, echo on pin 4. *)
Definition twoPins : Sys := exec (initUSDistancePins 5 4) powerOn.

(** One pin mode on pin 5. *)
Definition onePin : Sys := exec (initUSDistancePin 5) powerOn.

(** ** The rest of the driver: the sensor test *)

(** [delay(ms)] of the Arduino core busy-waits [ms] milliseconds on the
    microsecond counter; it is recorded as the busy wait it is, in
    microseconds. *)
Definition delay (ms : Z) : M unit :=
  modify (fun s => set_clock (to_ulong (clock s + 1000 * ms)) s) ;;
  emit (DelayMicroseconds (1000 * ms)).

(** The [for] loop of [testUSSensor]:
    [for (long i = 0; i < bound; ++i) { ... }].
    [fuel] bounds the number of iterations of the model; the loop itself
    ends when the condition fails. *)
Fixpoint testUSSensorLoop (fuel : nat) (i bound : Z) : M unit :=
  match fuel with
  | O => ret tt
  | S fuel' =>
    if i <? bound then
      trigger <- read sTriggerOutPin ;;
      digitalWrite trigger HIGH ;;
      delayMicroseconds 582 ;;
      digitalWrite trigger LOW ;;
      delay 20 ;;
      testUSSensorLoop fuel' (i + 1) bound
    else ret tt
  end.

(** [void testUSSensor(uint16_t aSecondsToTest)]: the bound
    [aSecondsToTest * 50] is computed in [unsigned int] and compared
    with the [long] counter. *)
Definition testUSSensor (aSecondsToTest : Z) : M unit :=
  testUSSensorLoop (Z.to_nat two16) 0 (to_uint (aSecondsToTest * 50)).

(** One round of the test: the hardware accesses of one iteration. *)
Definition testPulse (trigger : Z) : list Event :=
  [DigitalWrite trigger HIGH; DelayMicroseconds 582;
   DigitalWrite trigger LOW; DelayMicroseconds 20000].

(** ** The application (Blind_Guidance.ino) *)

(** Conversion to [int] (16 bits, two's complement). *)
Definition to_int (x : Z) : Z := (x + 32768) mod two16 - 32768.

(** [int getPeriod(int lengthCentimeter)] *)
Definition getPeriod (lengthCentimeter : Z) : Z :=
  if 150 <=? lengthCentimeter then 4000
  else if 100 <=? lengthCentimeter then 2000
  else if 80 <=? lengthCentimeter then 1000
  else 500.

(** What the application sends to the serial console and to the audio
    player (the Serial and TMRpcm libraries are not part of the
    repository). *)
Inductive AppEvent : Type :=
| SerialPrint (text : string)
| SerialPrintln (text : string)
| SerialPrintInt (n : Z)
| SerialPrintlnInt (n : Z)
| Play (file : string)
| WaitWhilePlaying
| StopPlayback.

Definition AppEvent_eq_dec (a b : AppEvent) : {a = b} + {a <> b}.
Proof.
  decide equality; try apply Z.eq_dec; apply string_dec.
Defined.

(** The application state: the driver with its hardware, and what has
    been sent to console and player so far, oldest first. *)
Record App : Type := mkApp {
  sys : Sys;
  console : list AppEvent
}.

Definition AppM (X : Type) : Type := App -> X * App.

Definition aret {X : Type} (x : X) : AppM X := fun a => (x, a).

Definition abind {X Y : Type} (m : AppM X) (k : X -> AppM Y) : AppM Y :=
  fun a => let (x, a') := m a in k x a'.

Declare Scope app_scope.
Delimit Scope app_scope with app.
Notation "x <- m ;; k" := (abind m (fun x => k))
  (at level 61, m at next level, right associativity) : app_scope.
Notation "m ;; k" := (abind m (fun _ => k))
  (at level 61, right associativity) : app_scope.

(** A call into the driver. *)
Definition lift {X : Type} (m : M X) : AppM X :=
  fun a => let (x, s') := m (sys a) in (x, mkApp s' (console a)).

Definition say (e : AppEvent) : AppM unit :=
  fun a => (tt, mkApp (sys a) (console a ++ [e])).

Definition aexec {X : Type} (m : AppM X) (a : App) : App := snd (m a).

Definition aeval {X : Type} (m : AppM X) (a : App) : X := fst (m a).

(** What [m] sends to console and player when started in [a]. *)
Definition said {X : Type} (m : AppM X) (a : App) : list AppEvent :=
  skipn (length (console a)) (console (aexec m a)).

(** The hardware accesses made by [m] when started in [a]. *)
Definition appEffects {X : Type} (m : AppM X) (a : App) : list Event :=
  skipn (length (trace (sys a))) (trace (sys (aexec m a))).

Definition ECHO_IN_PIN : Z := 4.
Definition TRIGGER_OUT_PIN : Z := 5.
Definition audioFile : string := "atnobs.wav"%string.

Section Application.

Variable board : Board.

(** [void setup_radar(void)] ([TEENSYDUINO] is not defined). *)
Definition setup_radar : AppM unit :=
  (lift (initUSDistancePins TRIGGER_OUT_PIN ECHO_IN_PIN) ;;
   lift (delay 1000))%app.

(** [void sendSound(void)]; the wait for the end of the playback is one
    event. *)
Definition sendSound : AppM unit :=
  (say (Play audioFile) ;;
   say WaitWhilePlaying ;;
   say StopPlayback)%app.

(** [void sendMessage(int lengthCentimeter, int lengthCentimeterAlert, int intervalMessage)] *)
Definition sendMessage
    (lengthCentimeter lengthCentimeterAlert intervalMessage : Z)
    : AppM unit :=
  ((if lengthCentimeterAlert <=? lengthCentimeter then
      say (SerialPrint "info: Longue distance, ") ;;
      say (SerialPrintInt lengthCentimeter) ;;
      say (SerialPrintln "cm")
    else
      say (SerialPrint "info: Cas nominal, ") ;;
      say (SerialPrint "cm=") ;;
      say (SerialPrintlnInt lengthCentimeter) ;;
      sendSound) ;;
   lift (delay (to_ulong intervalMessage)))%app.

(** [void loop()] *)
Definition loop : AppM unit :=
  (cm <- lift (getUSDistanceAsCentiMeterWithCentimeterTimeout board 300) ;;
   let lengthCentimeter := to_int cm in
   let lengthCentimeterAlert := 200 in
   let intervalMessage := getPeriod lengthCentimeter in
   say (SerialPrint "info: Period = ") ;;
   say (SerialPrintlnInt intervalMessage) ;;
   sendMessage lengthCentimeter lengthCentimeterAlert intervalMessage)%app.

(** The distance [loop] works with, as measured in state [s]. *)
Definition measuredCentimeter (s : Sys) : Z :=
  to_int (eval (getUSDistanceAsCentiMeterWithCentimeterTimeout board 300) s).

End Application.

(** Whether the warning sound is among the events. *)
Definition soundPlayed (evs : list AppEvent) : bool :=
  existsb (fun e => if AppEvent_eq_dec e (Play audioFile) then true else false)
    evs.

(** The pulse the next [pulseIn] / [pulseInLong] will report. *)
Definition pendingPulse (s : Sys) : Z :=
  match echoPulses s with
  | [] => 0
  | p :: _ => to_ulong p
  end.

(** The globals of the driver, without the hardware. *)
Definition driverGlobals (s : Sys)
    : Z * Z * SensorMode * Z * Z * bool * Z * Z :=
  (sTriggerOutPin s, sEchoInPin s, sHCSR04Mode s, sUSDistanceCentimeter s,
   sUSPulseMicros s, sUSValueIsValid s, sMicrosAtStartOfPulse s,
   sTimeoutMicros s).

Definition isPinMode (e : Event) : bool :=
  match e with
  | PinMode _ _ => true
  | _ => false
  end.

Definition isStart (st : Step) : bool :=
  match st with
  | StartMeasurement _ => true
  | _ => false
  end.

(** The hardware accesses of one blocking measurement, by mode. *)
Definition measureEvents (board : Board) (timeout : Z) (s : Sys)
    : list Event :=
  match sHCSR04Mode s with
  | HCSR04_MODE_UNITITIALIZED => []
  | HCSR04_MODE_USE_1_PIN =>
    [DigitalWrite (sTriggerOutPin s) HIGH; PinMode (sTriggerOutPin s) OUTPUT;
     DelayMicroseconds 10; DigitalWrite (sTriggerOutPin s) LOW;
     DelayMicroseconds 20; PinMode (sTriggerOutPin s) INPUT]
    ++ pulseEvents board (sTriggerOutPin s) timeout
  | HCSR04_MODE_USE_2_PINS =>
    [DigitalWrite (sTriggerOutPin s) HIGH; DelayMicroseconds 10;
     DigitalWrite (sTriggerOutPin s) LOW]
    ++ pulseEvents board (sEchoInPin s) timeout
  end.

(** What one pass of [loop] sends to console and player when it works
    with the distance [d]. *)
Definition loopMessages (d : Z) : list AppEvent :=
  [SerialPrint "info: Period = "; SerialPrintlnInt (getPeriod d)] ++
  (if 200 <=? d then
     [SerialPrint "info: Longue distance, "; SerialPrintInt d;
      SerialPrintln "cm"]
   else
     [SerialPrint "info: Cas nominal, "; SerialPrint "cm=";
      SerialPrintlnInt d; Play audioFile; WaitWhilePlaying; StopPlayback]).

(** ** The conversions: refinement of the specification's formulas *)

Ltac unfold_cint :=
  unfold getCentimeterFromUSMicroSeconds, tTimeoutMicros,
    nonBlockingTimeoutMicros, microsecondsToCentimeters,
    centimetersToTimeoutMicros, to_u8, to_uint, to_ulong, to_long,
    two8, two16, two31, two32 in *.

(** Linear arithmetic with division and remainder by constants. *)
Ltac zdiv := Z.to_euclidean_division_equations; lia.

Lemma to_long_small (x : Z) :
  - two31 <= x < two31 -> to_long x = x.
Proof. unfold_cint. zdiv. Qed.

Lemma to_uint_small (x : Z) : 0 <= x < two16 -> to_uint x = x.
Proof. unfold_cint. intros H. apply Z.mod_small. exact H. Qed.

Lemma to_ulong_small (x : Z) : 0 <= x < two32 -> to_ulong x = x.
Proof. unfold_cint. intros H. apply Z.mod_small. exact H. Qed.

(** On every [unsigned int] argument the code computes the formula of the
    specification. *)
Lemma getCentimeterFromUSMicroSeconds_spec (d : Z) :
  0 <= d < two16 ->
  getCentimeterFromUSMicroSeconds d = microsecondsToCentimeters d.
Proof.
  intros H. unfold getCentimeterFromUSMicroSeconds, microsecondsToCentimeters.
  unfold two16 in H.
  rewrite (to_long_small d) by (unfold two31; lia).
  rewrite (to_long_small (d * 100)) by (unfold two31; lia).
  rewrite Z.quot_div_nonneg by lia.
  apply to_uint_small. unfold two16.
  split.
  - apply Z.div_pos; lia.
  - apply Z.div_lt_upper_bound; lia.
Qed.

(** The blocking path computes the specification's timeout formula as
    long as the quotient fits an [unsigned int], that is up to 1125 cm. *)
Lemma tTimeoutMicros_spec (c : Z) :
  0 <= c <= 1125 ->
  tTimeoutMicros c = centimetersToTimeoutMicros c.
Proof.
  intros H. unfold tTimeoutMicros, centimetersToTimeoutMicros.
  rewrite (to_long_small c) by (unfold two31; lia).
  rewrite (to_long_small (c * 233)) by (unfold two31; lia).
  rewrite (to_long_small (c * 233 + 2)) by (unfold two31; lia).
  rewrite Z.quot_div_nonneg by lia.
  apply to_uint_small. unfold two16.
  split.
  - apply Z.div_pos; lia.
  - apply Z.div_lt_upper_bound; lia.
Qed.

(** The non-blocking path computes it only while the product
    [aTimeoutCentimeter * 233 + 2] itself fits an [unsigned int]. *)
Lemma nonBlockingTimeoutMicros_spec (c : Z) :
  0 <= c <= 281 ->
  nonBlockingTimeoutMicros c = centimetersToTimeoutMicros c.
Proof.
  intros H. unfold nonBlockingTimeoutMicros, centimetersToTimeoutMicros.
  rewrite (to_uint_small (c * 233)) by (unfold two16; lia).
  rewrite (to_uint_small (c * 233 + 2)) by (unfold two16; lia).
  apply to_uint_small. unfold two16.
  split.
  - apply Z.div_pos; lia.
  - apply Z.div_lt_upper_bound; lia.
Qed.

(** C6: the anchor values of the two conversions:
    0 us is 0 cm, 5825 us is 100 cm, a timeout of 100 cm is 5825 us and a
    timeout of 0 cm is 0 us. *)
Theorem C6_conversion_anchors :
  getCentimeterFromUSMicroSeconds 0 = 0 /\
  getCentimeterFromUSMicroSeconds 5825 = 100 /\
  tTimeoutMicros 100 = 5825 /\
  tTimeoutMicros 0 = 0.
Proof. repeat split; reflexivity. Qed.

(** The same anchors hold for the timeout stored by the non-blocking
    start. *)
Lemma nonBlockingTimeoutMicros_anchors :
  nonBlockingTimeoutMicros 100 = 5825 /\ nonBlockingTimeoutMicros 0 = 0.
Proof. split; reflexivity. Qed.

(** C5: for every c in [1, 1000], converting c centimeters to a timeout
    in microseconds and converting that back to centimeters gives a value
    that differs from c by at most 1. *)
Theorem C5_conversions_approximate_inverses (c : Z) :
  1 <= c <= 1000 ->
  Z.abs (getCentimeterFromUSMicroSeconds (tTimeoutMicros c) - c) <= 1.
Proof.
  intros H.
  rewrite tTimeoutMicros_spec by lia.
  unfold centimetersToTimeoutMicros.
  assert (Hq : 0 <= (c * 233 + 2) / 4 < two16).
  { unfold two16. split.
    - apply Z.div_pos; lia.
    - apply Z.div_lt_upper_bound; lia. }
  rewrite getCentimeterFromUSMicroSeconds_spec by exact Hq.
  unfold microsecondsToCentimeters. zdiv.
Qed.

Lemma C5_conversions_approximate_inverses_witness :
  1 <= 300 <= 1000 /\
  Z.abs (getCentimeterFromUSMicroSeconds (tTimeoutMicros 300) - 300) <= 1.
Proof.
  split; [lia |]. apply (C5_conversions_approximate_inverses 300). lia.
Defined.

(** ** Hardware effects of the operations *)

Lemma skipn_length_app {A : Type} (l l' : list A) :
  skipn (length l) (l ++ l') = l'.
Proof. induction l as [| x l IH]; simpl; [reflexivity | exact IH]. Qed.

Lemma effects_of_trace {A : Type} (m : M A) (s : Sys) (l : list Event) :
  trace (exec m s) = trace s ++ l -> effects m s = l.
Proof. intros H. unfold effects. rewrite H. apply skipn_length_app. Qed.

Lemma effects_unchanged {A : Type} (m : M A) (s : Sys) :
  exec m s = s -> effects m s = [].
Proof.
  intros H. apply effects_of_trace. rewrite H. symmetry. apply app_nil_r.
Qed.

Lemma Event_eqb_refl (e : Event) : Event_eqb e e = true.
Proof. unfold Event_eqb. destruct (Event_eq_dec e e); congruence. Qed.

Lemma Event_eqb_neq (a b : Event) : a <> b -> Event_eqb a b = false.
Proof. intros H. unfold Event_eqb. destruct (Event_eq_dec a b); congruence. Qed.

(** Proofs about the code compute on an explicit state. *)
Ltac destruct_sys s :=
  destruct s as [trig echo mode cm pulse valid start timeout clk rg ep tr];
  simpl in *.

(** What [getUSDistance] does to the hardware once the pins are
    initialised. *)
Lemma getUSDistance_effects_1_pin (board : Board) (t : Z) (s : Sys) :
  sHCSR04Mode s = HCSR04_MODE_USE_1_PIN ->
  effects (getUSDistance board t) s =
    [DigitalWrite (sTriggerOutPin s) HIGH; PinMode (sTriggerOutPin s) OUTPUT;
     DelayMicroseconds 10; DigitalWrite (sTriggerOutPin s) LOW;
     DelayMicroseconds 20; PinMode (sTriggerOutPin s) INPUT]
    ++ pulseEvents board (sTriggerOutPin s) t.
Proof.
  intros Hm. apply effects_of_trace.
  destruct_sys s. subst mode. unfold pulseEvents.
  destruct (usesPulseInLong board) eqn:Hb, ep as [| p rest];
    unfold getUSDistance, exec, bind, read; simpl; rewrite Hb; simpl;
    repeat rewrite <- app_assoc; reflexivity.
Qed.

Lemma getUSDistance_effects_2_pins (board : Board) (t : Z) (s : Sys) :
  sHCSR04Mode s = HCSR04_MODE_USE_2_PINS ->
  effects (getUSDistance board t) s =
    [DigitalWrite (sTriggerOutPin s) HIGH; DelayMicroseconds 10;
     DigitalWrite (sTriggerOutPin s) LOW]
    ++ pulseEvents board (sEchoInPin s) t.
Proof.
  intros Hm. apply effects_of_trace.
  destruct_sys s. subst mode. unfold pulseEvents.
  destruct (usesPulseInLong board) eqn:Hb, ep as [| p rest];
    unfold getUSDistance, exec, bind, read; simpl; rewrite Hb; simpl;
    repeat rewrite <- app_assoc; reflexivity.
Qed.

Lemma getUSDistanceAsCentiMeter_exec (board : Board) (t : Z) (s : Sys) :
  exec (getUSDistanceAsCentiMeter board t) s = exec (getUSDistance board t) s.
Proof.
  unfold getUSDistanceAsCentiMeter, exec, bind, ret.
  destruct (getUSDistance board t s); reflexivity.
Qed.

Lemma getUSDistanceAsCentiMeter_effects (board : Board) (t : Z) (s : Sys) :
  effects (getUSDistanceAsCentiMeter board t) s =
  effects (getUSDistance board t) s.
Proof. unfold effects. rewrite getUSDistanceAsCentiMeter_exec. reflexivity. Qed.

(** ** Before initialisation *)

Lemma getUSDistance_uninitialized (board : Board) (t : Z) (s : Sys) :
  sHCSR04Mode s = HCSR04_MODE_UNITITIALIZED ->
  getUSDistance board t s = (0, s).
Proof.
  intros Hm. unfold getUSDistance, bind, read. rewrite Hm. reflexivity.
Qed.

(** C2, as far as it holds: while the mode is Uninitialized each of the
    blocking measurement operations returns 0 and leaves the whole state
    as it was, so it makes no pin write, no pin mode change and no
    register write, whatever the timeout. *)
Theorem C2_blocking_uninitialized_returns_0
    (board : Board) (aTimeout : Z) (s : Sys) :
  sHCSR04Mode s = HCSR04_MODE_UNITITIALIZED ->
  (getUSDistance board aTimeout s = (0, s) /\
   effects (getUSDistance board aTimeout) s = []) /\
  (getUSDistanceAsCentiMeter board aTimeout s = (0, s) /\
   effects (getUSDistanceAsCentiMeter board aTimeout) s = []) /\
  (getUSDistanceAsCentiMeterWithCentimeterTimeout board aTimeout s = (0, s) /\
   effects (getUSDistanceAsCentiMeterWithCentimeterTimeout board aTimeout) s
     = []).
Proof.
  intros Hm.
  assert (H1 : forall t, getUSDistance board t s = (0, s))
    by (intros t; apply getUSDistance_uninitialized; exact Hm).
  assert (H2 : forall t, getUSDistanceAsCentiMeter board t s = (0, s)).
  { intros t. unfold getUSDistanceAsCentiMeter, bind. rewrite H1.
    reflexivity. }
  repeat split.
  - apply H1.
  - apply effects_unchanged. unfold exec. rewrite H1. reflexivity.
  - apply H2.
  - apply effects_unchanged. unfold exec. rewrite H2. reflexivity.
  - apply H2.
  - apply effects_unchanged. unfold exec.
    unfold getUSDistanceAsCentiMeterWithCentimeterTimeout. rewrite H2.
    reflexivity.
Qed.

Lemma C2_blocking_uninitialized_returns_0_witness :
  sHCSR04Mode powerOn = HCSR04_MODE_UNITITIALIZED /\
  getUSDistanceAsCentiMeterWithCentimeterTimeout atmega328p 300 powerOn
    = (0, powerOn).
Proof.
  split; [reflexivity |].
  apply (C2_blocking_uninitialized_returns_0 atmega328p 300 powerOn).
  reflexivity.
Defined.

(** C2 as stated fails for the non-blocking start: it never looks at the
    mode, and in the state after reset it writes the trigger pin and the
    three interrupt registers. *)
Lemma C2_nonblocking_start_touches_hardware :
  sHCSR04Mode powerOn = HCSR04_MODE_UNITITIALIZED /\
  effects
    (startUSDistanceAsCentiMeterWithCentimeterTimeoutNonBlocking atmega328p 100)
    powerOn
  = [DigitalWrite 0 HIGH; RegWrite PCMSK2 1; RegWrite PCICR 4;
     RegWrite PCIFR 4; DelayMicroseconds 10; DigitalWrite 0 LOW] /\
  effects
    (startUSDistanceAsCentiMeterWithCentimeterTimeoutNonBlocking atmega328p 100)
    powerOn <> [].
Proof.
  split; [reflexivity |].
  split; [vm_compute; reflexivity | vm_compute; discriminate].
Qed.

(** ** The trigger pulse of the blocking measurement *)

Ltac event_eqb :=
  repeat first
    [ rewrite Event_eqb_refl
    | rewrite Event_eqb_neq by discriminate ].

Lemma highBeforeOutput_1_pin (pin : Z) (rest : list Event) :
  (forall e, In e rest ->
     e <> DigitalWrite pin HIGH /\ e <> PinMode pin OUTPUT) ->
  highBeforeOutput pin
    (DigitalWrite pin HIGH :: PinMode pin OUTPUT :: rest).
Proof.
  intros Hrest. exists 0%nat, 1%nat.
  assert (Hh : count_occ Event_eq_dec rest (DigitalWrite pin HIGH) = 0%nat).
  { apply count_occ_not_In. intros Hin. apply Hrest in Hin. tauto. }
  assert (Ho : count_occ Event_eq_dec rest (PinMode pin OUTPUT) = 0%nat).
  { apply count_occ_not_In. intros Hin. apply Hrest in Hin. tauto. }
  simpl indexOf. event_eqb.
  rewrite count_occ_cons_eq by reflexivity.
  rewrite count_occ_cons_neq by discriminate.
  rewrite count_occ_cons_neq by discriminate.
  rewrite count_occ_cons_eq by reflexivity.
  rewrite Hh, Ho. repeat split. lia.
Qed.

Lemma pulseEvents_no_trigger (board : Board) (pin t : Z) (e : Event) :
  In e (pulseEvents board pin t) ->
  forall p l d, e <> DigitalWrite p l /\ e <> PinMode p d /\
                delayOf e = 0.
Proof.
  unfold pulseEvents. intros Hin p l d.
  destruct (usesPulseInLong board); simpl in Hin;
    repeat (destruct Hin as [Hin | Hin]; [subst e |]); try contradiction;
    repeat split; try discriminate; reflexivity.
Qed.

(** C8: in one-pin mode every blocking measurement (raw, in centimeters,
    or with the timeout in centimeters) writes HIGH to the shared pin
    strictly before it switches that pin to output. *)
Theorem C8_high_written_before_output
    (board : Board) (aTimeout : Z) (s : Sys) :
  sHCSR04Mode s = HCSR04_MODE_USE_1_PIN ->
  highBeforeOutput (sTriggerOutPin s)
    (effects (getUSDistance board aTimeout) s) /\
  highBeforeOutput (sTriggerOutPin s)
    (effects (getUSDistanceAsCentiMeter board aTimeout) s) /\
  highBeforeOutput (sTriggerOutPin s)
    (effects (getUSDistanceAsCentiMeterWithCentimeterTimeout board aTimeout) s).
Proof.
  intros Hm.
  assert (H : forall t, highBeforeOutput (sTriggerOutPin s)
                          (effects (getUSDistance board t) s)).
  { intros t. rewrite getUSDistance_effects_1_pin by exact Hm.
    apply highBeforeOutput_1_pin. intros e Hin.
    simpl in Hin.
    repeat (destruct Hin as [Hin | Hin];
            [subst e; split; discriminate |]).
    destruct (pulseEvents_no_trigger board _ _ e Hin
                (sTriggerOutPin s) HIGH OUTPUT) as (H1 & H2 & _).
    split; assumption. }
  split; [apply H |].
  split.
  - rewrite getUSDistanceAsCentiMeter_effects. apply H.
  - unfold getUSDistanceAsCentiMeterWithCentimeterTimeout.
    rewrite getUSDistanceAsCentiMeter_effects. apply H.
Qed.

Lemma C8_high_written_before_output_witness :
  sHCSR04Mode onePin = HCSR04_MODE_USE_1_PIN /\
  highBeforeOutput 5
    (effects (getUSDistanceAsCentiMeterWithCentimeterTimeout atmega328p 300)
       onePin).
Proof.
  split; [reflexivity |].
  apply (C8_high_written_before_output atmega328p 300 onePin).
  reflexivity.
Defined.

(** C7, as the code has it: in either mode the trigger pin is held high
    for a settle delay of 10 microseconds before it is driven low; the
    20 microseconds of one-pin mode come after that, while the pin is
    low and before it is switched to input. *)
Theorem C7_settle_delay_is_10
    (board : Board) (aTimeoutMicros : Z) (s : Sys) :
  sHCSR04Mode s <> HCSR04_MODE_UNITITIALIZED ->
  settleDelay (sTriggerOutPin s)
    (effects (getUSDistance board aTimeoutMicros) s) = Some 10 /\
  (sHCSR04Mode s = HCSR04_MODE_USE_1_PIN ->
   lowDelay (sTriggerOutPin s)
     (effects (getUSDistance board aTimeoutMicros) s) = Some 20).
Proof.
  intros Hm. unfold settleDelay, lowDelay.
  destruct (sHCSR04Mode s) eqn:Hmode; [congruence | |].
  - rewrite getUSDistance_effects_1_pin by exact Hmode.
    split; [| intros _]; simpl; event_eqb; reflexivity.
  - rewrite getUSDistance_effects_2_pins by exact Hmode.
    split; [| discriminate]. simpl; event_eqb; reflexivity.
Qed.

Lemma C7_settle_delay_is_10_witness :
  sHCSR04Mode onePin <> HCSR04_MODE_UNITITIALIZED /\
  settleDelay 5 (effects (getUSDistance atmega328p 17475) onePin) = Some 10 /\
  lowDelay 5 (effects (getUSDistance atmega328p 17475) onePin) = Some 20.
Proof.
  assert (Hm : sHCSR04Mode onePin <> HCSR04_MODE_UNITITIALIZED)
    by discriminate.
  split; [exact Hm |].
  destruct (C7_settle_delay_is_10 atmega328p 17475 onePin Hm) as [H1 H2].
  split; [exact H1 | apply H2; reflexivity].
Defined.

(** C7 as stated fails: in one-pin mode on pin 5 the pin is held high for
    10 microseconds, not 20. *)
Lemma C7_one_pin_settle_delay_not_20 :
  sHCSR04Mode onePin = HCSR04_MODE_USE_1_PIN /\
  effects (getUSDistance atmega328p 17475) onePin =
    [DigitalWrite 5 HIGH; PinMode 5 OUTPUT; DelayMicroseconds 10;
     DigitalWrite 5 LOW; DelayMicroseconds 20; PinMode 5 INPUT;
     PulseInLong 5 HIGH 17475] /\
  settleDelay 5 (effects (getUSDistance atmega328p 17475) onePin) = Some 10 /\
  settleDelay 5 (effects (getUSDistance atmega328p 17475) onePin) <> Some 20.
Proof.
  split; [reflexivity |].
  split; [vm_compute; reflexivity |].
  split; [vm_compute; reflexivity | vm_compute; discriminate].
Qed.

(** ** The non-blocking measurement *)

Arguments to_u8 : simpl never.
Arguments to_uint : simpl never.
Arguments to_ulong : simpl never.
Arguments bit : simpl never.
Arguments ulong_not : simpl never.
Arguments nonBlockingTimeoutMicros : simpl never.
Arguments getCentimeterFromUSMicroSeconds : simpl never.

Lemma to_ulong_idem (x : Z) : to_ulong (to_ulong x) = to_ulong x.
Proof. unfold to_ulong, two32. zdiv. Qed.

Lemma nonBlockingTimeoutMicros_nonneg (c : Z) :
  0 <= nonBlockingTimeoutMicros c.
Proof. unfold nonBlockingTimeoutMicros, to_uint, two16. zdiv. Qed.

Lemma to_ulong_range (x : Z) : 0 <= to_ulong x < two32.
Proof. unfold to_ulong, two32. zdiv. Qed.

(** The time read by the poll, minus the time read by the handler [d]
    microseconds earlier, is [d] again in [unsigned long] arithmetic. *)
Lemma elapsed_since (k d : Z) :
  0 <= d < two32 ->
  to_ulong (to_ulong (to_ulong (k + d)) - to_ulong k) = d.
Proof. unfold to_ulong, two32. intros H. zdiv. Qed.

Lemma clear_bit_testbit (reg b : Z) :
  Z.testbit (to_u8 (Z.land reg (ulong_not (bit b)))) b = false.
Proof.
  destruct (Z.ltb_spec b 0) as [Hneg | Hnn].
  - apply Z.testbit_neg_r. exact Hneg.
  - destruct (Z.ltb_spec b 8) as [Hlt | Hge].
    + unfold to_u8, ulong_not, bit, to_ulong.
      change two8 with (2 ^ 8). change two32 with (2 ^ 32).
      rewrite Z.mod_pow2_bits_low by lia.
      rewrite Z.land_spec, Z.lxor_spec.
      rewrite !Z.mod_pow2_bits_low by lia.
      rewrite Z.shiftl_spec by lia.
      rewrite Z.sub_diag, Z.ones_spec_low by lia.
      simpl. apply andb_false_r.
    + unfold to_u8. change two8 with (2 ^ 8).
      apply Z.mod_pow2_bits_high. lia.
Qed.

Lemma set_bit_testbit (reg b : Z) :
  0 <= b < 8 ->
  Z.testbit (to_u8 (Z.lor reg (bit b))) b = true.
Proof.
  intros Hb. unfold to_u8, bit, to_ulong.
  change two8 with (2 ^ 8). change two32 with (2 ^ 32).
  rewrite Z.mod_pow2_bits_low by lia.
  rewrite Z.lor_spec.
  rewrite Z.mod_pow2_bits_low by lia.
  rewrite Z.shiftl_spec by lia.
  rewrite Z.sub_diag. simpl. apply orb_true_r.
Qed.

Lemma Reg_eqb_refl (r : Reg) : Reg_eqb r r = true.
Proof. destruct r; reflexivity. Qed.

(** *** Start *)

(** The state in which the start leaves the driver: no value, no pulse
    start, the timeout stored. *)
Lemma start_state (board : Board) (c : Z) (s : Sys) :
  let s' :=
    exec (startUSDistanceAsCentiMeterWithCentimeterTimeoutNonBlocking board c)
      s in
  sUSValueIsValid s' = false /\
  sMicrosAtStartOfPulse s' = 0 /\
  sUSPulseMicros s' = 0 /\
  sTimeoutMicros s' = nonBlockingTimeoutMicros c /\
  sEchoInPin s' = sEchoInPin s /\
  sUSDistanceCentimeter s' = sUSDistanceCentimeter s.
Proof. destruct_sys s. repeat split; reflexivity. Qed.

(** The start arms the pin change interrupt of the echo pin. *)
Lemma start_arms_interrupt (board : Board) (c : Z) (s : Sys) :
  0 <= digitalPinToPCMSKbit board (sEchoInPin s) < 8 ->
  digitalPinToPCMSK board (sEchoInPin s) <> PCICR ->
  digitalPinToPCMSK board (sEchoInPin s) <> PCIFR ->
  echoInterruptEnabled board
    (exec (startUSDistanceAsCentiMeterWithCentimeterTimeoutNonBlocking board c)
       s) = true.
Proof.
  destruct_sys s. intros Hb H1 H2. unfold echoInterruptEnabled. simpl.
  destruct (digitalPinToPCMSK board echo) eqn:Hr; try congruence;
    simpl; apply set_bit_testbit; exact Hb.
Qed.

(** *** Poll *)

(** Armed and no pulse start recorded: the poll reports not done and
    changes nothing. *)
Lemma poll_no_edge (board : Board) (s : Sys) :
  sUSValueIsValid s = false ->
  sMicrosAtStartOfPulse s = 0 ->
  isUSDistanceMeasureFinished board s = (false, s).
Proof. destruct_sys s. intros -> ->. reflexivity. Qed.

(** The value is valid: the poll reports done and converts the pulse. *)
Lemma poll_valid (board : Board) (s : Sys) :
  sUSValueIsValid s = true ->
  isUSDistanceMeasureFinished board s =
    (true,
     set_sUSDistanceCentimeter
       (getCentimeterFromUSMicroSeconds (to_uint (sUSPulseMicros s))) s).
Proof. destruct_sys s. intros ->. reflexivity. Qed.

(** A pulse has started, no value yet, and the timeout has passed: the
    poll reports done and clears the mask bit of the echo pin. *)
Lemma poll_timeout (board : Board) (s : Sys) :
  sUSValueIsValid s = false ->
  sMicrosAtStartOfPulse s <> 0 ->
  sTimeoutMicros s <= to_ulong (now s - sMicrosAtStartOfPulse s) ->
  eval (isUSDistanceMeasureFinished board) s = true /\
  echoInterruptEnabled board (exec (isUSDistanceMeasureFinished board) s)
    = false /\
  sUSPulseMicros (exec (isUSDistanceMeasureFinished board) s)
    = sUSPulseMicros s /\
  sUSDistanceCentimeter (exec (isUSDistanceMeasureFinished board) s)
    = sUSDistanceCentimeter s.
Proof.
  destruct_sys s. intros -> Hstart Hto.
  unfold isUSDistanceMeasureFinished, echoInterruptEnabled, eval, exec,
    bind, read, micros, now in *. simpl in *.
  apply Z.eqb_neq in Hstart. rewrite Hstart. simpl.
  apply Z.leb_le in Hto. rewrite Hto. simpl.
  rewrite Reg_eqb_refl.
  repeat split. apply clear_bit_testbit.
Qed.

(** A pulse has started, no value yet, and the timeout has not passed:
    not done, nothing changes. *)
Lemma poll_waiting (board : Board) (s : Sys) :
  sUSValueIsValid s = false ->
  to_ulong (now s - sMicrosAtStartOfPulse s) < sTimeoutMicros s ->
  isUSDistanceMeasureFinished board s = (false, s).
Proof.
  destruct_sys s. intros -> Hto.
  unfold isUSDistanceMeasureFinished, bind, read, micros, now in *.
  simpl in *.
  destruct (start =? 0); simpl; [reflexivity |].
  apply Z.leb_gt in Hto. rewrite Hto. reflexivity.
Qed.

(** *** Interrupt handler and clock *)

Lemma rising_edge_state (p : Z) (s : Sys) :
  0 < p ->
  exec (handlePCInterrupt p) s = set_sMicrosAtStartOfPulse (now s) s.
Proof.
  intros Hp. apply Z.ltb_lt in Hp.
  unfold handlePCInterrupt. rewrite Hp. reflexivity.
Qed.

Lemma falling_edge_state (p : Z) (s : Sys) :
  p <= 0 ->
  exec (handlePCInterrupt p) s =
  set_sUSValueIsValid true
    (set_sUSPulseMicros (to_ulong (now s - sMicrosAtStartOfPulse s)) s).
Proof.
  intros Hp. apply Z.ltb_ge in Hp.
  unfold handlePCInterrupt. rewrite Hp. reflexivity.
Qed.

Lemma elapse_state (d : Z) (s : Sys) :
  exec (elapse d) s = set_clock (to_ulong (clock s + d)) s.
Proof. reflexivity. Qed.

Lemma to_ulong_now (s : Sys) : to_ulong (now s) = now s.
Proof. unfold now. apply to_ulong_idem. Qed.

Lemma now_elapse (d : Z) (s : Sys) :
  now (exec (elapse d) s) = to_ulong (clock s + d).
Proof. rewrite elapse_state. unfold now. simpl. apply to_ulong_idem. Qed.

(** *** Runs *)

Lemma exec_run_nil (board : Board) (s : Sys) : exec (run board []) s = s.
Proof. reflexivity. Qed.

Lemma eval_run_nil (board : Board) (s : Sys) : eval (run board []) s = [].
Proof. reflexivity. Qed.

Lemma exec_run_cons (board : Board) (st : Step) (sts : list Step) (s : Sys) :
  exec (run board (st :: sts)) s =
  exec (run board sts) (exec (step board st) s).
Proof.
  unfold exec. simpl. unfold bind, ret.
  destruct (step board st s) as [o s1]. simpl.
  destruct (run board sts s1) as [os s2]. reflexivity.
Qed.

Lemma eval_run_cons (board : Board) (st : Step) (sts : list Step) (s : Sys) :
  eval (run board (st :: sts)) s =
  match eval (step board st) s with
  | Some r => r :: eval (run board sts) (exec (step board st) s)
  | None => eval (run board sts) (exec (step board st) s)
  end.
Proof.
  unfold eval, exec. simpl. unfold bind, ret.
  destruct (step board st s) as [o s1]. simpl.
  destruct (run board sts s1) as [os s2]. reflexivity.
Qed.

Lemma exec_run_app (board : Board) (sts1 sts2 : list Step) (s : Sys) :
  exec (run board (sts1 ++ sts2)) s =
  exec (run board sts2) (exec (run board sts1) s).
Proof.
  revert s. induction sts1 as [| st sts1 IH]; intros s.
  - reflexivity.
  - simpl app. rewrite !exec_run_cons. apply IH.
Qed.

Lemma exec_step_start (board : Board) (c : Z) (s : Sys) :
  exec (step board (StartMeasurement c)) s =
  exec (startUSDistanceAsCentiMeterWithCentimeterTimeoutNonBlocking board c) s.
Proof.
  unfold step, bind, exec, ret.
  destruct (startUSDistanceAsCentiMeterWithCentimeterTimeoutNonBlocking
              board c s).
  reflexivity.
Qed.

Lemma eval_step_start (board : Board) (c : Z) (s : Sys) :
  eval (step board (StartMeasurement c)) s = None.
Proof.
  unfold step, bind, eval, ret.
  destruct (startUSDistanceAsCentiMeterWithCentimeterTimeoutNonBlocking
              board c s).
  reflexivity.
Qed.

Lemma exec_step_elapse (board : Board) (d : Z) (s : Sys) :
  exec (step board (Elapse d)) s = exec (elapse d) s.
Proof. reflexivity. Qed.

Lemma eval_step_elapse (board : Board) (d : Z) (s : Sys) :
  eval (step board (Elapse d)) s = None.
Proof. reflexivity. Qed.

Lemma exec_step_pin_change (board : Board) (p : Z) (s : Sys) :
  exec (step board (PinChange p)) s = exec (handlePCInterrupt p) s.
Proof.
  unfold step, bind, exec, ret. destruct (handlePCInterrupt p s). reflexivity.
Qed.

Lemma eval_step_pin_change (board : Board) (p : Z) (s : Sys) :
  eval (step board (PinChange p)) s = None.
Proof.
  unfold step, bind, eval, ret. destruct (handlePCInterrupt p s). reflexivity.
Qed.

Lemma exec_step_poll (board : Board) (s : Sys) :
  exec (step board Poll) s = exec (isUSDistanceMeasureFinished board) s.
Proof.
  unfold step, pollMeasurement, bind, exec, read, ret.
  destruct (isUSDistanceMeasureFinished board s). reflexivity.
Qed.

Lemma eval_step_poll (board : Board) (s : Sys) :
  eval (step board Poll) s =
  Some (eval (isUSDistanceMeasureFinished board) s,
        sUSDistanceCentimeter (exec (isUSDistanceMeasureFinished board) s)).
Proof.
  unfold step, pollMeasurement, bind, eval, exec, read, ret.
  destruct (isUSDistanceMeasureFinished board s). reflexivity.
Qed.

Lemma eval_pollMeasurement (board : Board) (s : Sys) :
  eval (pollMeasurement board) s =
  (eval (isUSDistanceMeasureFinished board) s,
   sUSDistanceCentimeter (exec (isUSDistanceMeasureFinished board) s)).
Proof.
  unfold pollMeasurement, bind, eval, exec, read, ret.
  destruct (isUSDistanceMeasureFinished board s). reflexivity.
Qed.

Create Rewrite HintDb run_db.
#[local] Hint Rewrite exec_run_nil eval_run_nil exec_run_cons eval_run_cons
  exec_step_start eval_step_start exec_step_elapse eval_step_elapse
  exec_step_pin_change eval_step_pin_change exec_step_poll eval_step_poll
  : run_db.

(** Unfold a run, step by step, into the calls it makes. *)
Ltac run_steps := repeat (autorewrite with run_db; cbv beta iota).

(** With no edge on the echo pin the driver stays armed without a pulse
    start, whatever time passes and however often it is polled or
    restarted, and no poll reports done. *)
Lemma no_edges_never_done (board : Board) (sts : list Step) (s : Sys) :
  sUSValueIsValid s = false ->
  sMicrosAtStartOfPulse s = 0 ->
  forallb noEdge sts = true ->
  Forall (fun r => fst r = false) (eval (run board sts) s) /\
  sUSValueIsValid (exec (run board sts) s) = false /\
  sMicrosAtStartOfPulse (exec (run board sts) s) = 0.
Proof.
  revert s. induction sts as [| st sts IH]; intros s Hv Hs Hq.
  - repeat split; [constructor | exact Hv | exact Hs].
  - simpl in Hq. apply andb_true_iff in Hq. destruct Hq as [Hst Hq].
    rewrite exec_run_cons, eval_run_cons.
    destruct st as [c | p | d |]; try discriminate.
    + rewrite eval_step_start, exec_step_start.
      pose proof (start_state board c s) as HS. cbv zeta in HS.
      destruct HS as (H1 & H2 & _).
      apply IH; assumption.
    + rewrite eval_step_elapse, exec_step_elapse.
      apply IH; assumption.
    + rewrite eval_step_poll, exec_step_poll.
      assert (Hex : exec (isUSDistanceMeasureFinished board) s = s)
        by (unfold exec; rewrite poll_no_edge by assumption; reflexivity).
      assert (Hev : eval (isUSDistanceMeasureFinished board) s = false)
        by (unfold eval; rewrite poll_no_edge by assumption; reflexivity).
      rewrite Hex, Hev.
      destruct (IH s Hv Hs Hq) as (F & V & S0).
      repeat split; [constructor; [reflexivity | exact F] | exact V | exact S0].
Qed.

(** The timeout branch of the poll, on any state in which no value has
    been recorded yet. *)
Lemma timeout_after_rising_edge (board : Board) (d0 p d1 : Z) (s0 : Sys) :
  sUSValueIsValid s0 = false ->
  0 < p ->
  now (exec (elapse d0) s0) <> 0 ->
  sTimeoutMicros s0 <= d1 < two32 ->
  0 <= d1 ->
  eval (isUSDistanceMeasureFinished board)
    (exec (elapse d1) (exec (handlePCInterrupt p) (exec (elapse d0) s0)))
    = true /\
  echoInterruptEnabled board
    (exec (isUSDistanceMeasureFinished board)
       (exec (elapse d1) (exec (handlePCInterrupt p) (exec (elapse d0) s0))))
    = false /\
  sUSPulseMicros
    (exec (isUSDistanceMeasureFinished board)
       (exec (elapse d1) (exec (handlePCInterrupt p) (exec (elapse d0) s0))))
    = sUSPulseMicros s0.
Proof.
  intros Hv Hp Hnow Hd Hd0.
  rewrite (rising_edge_state p) by exact Hp.
  destruct_sys s0. subst valid.
  unfold now, elapse, exec, modify in *. simpl in *.
  rewrite to_ulong_idem in *.
  destruct (poll_timeout board
    (mkSys trig echo mode cm pulse false (to_ulong (clk + d0)) timeout
       (to_ulong (to_ulong (clk + d0) + d1)) rg ep tr))
    as (R1 & R2 & R3 & _); simpl.
  - reflexivity.
  - exact Hnow.
  - unfold now. simpl.
    rewrite <- (to_ulong_idem (clk + d0)) at 2.
    rewrite elapsed_since by lia. apply Hd.
  - unfold eval, exec in *. repeat split; assumption.
Qed.

(** C1, as the code has it: once a rising edge has been recorded at a
    non-zero time and no falling edge follows, a poll made when at least
    the stored timeout has elapsed since that edge reports done and
    leaves the pin change interrupt of the echo pin disabled; the raw
    pulse duration is still 0. *)
Theorem C1_timeout_after_rising_edge
    (board : Board) (c d0 p d1 : Z) (s : Sys) :
  0 < p ->
  now (exec (run board [StartMeasurement c; Elapse d0]) s) <> 0 ->
  nonBlockingTimeoutMicros c <= d1 < two32 ->
  map fst
    (eval (run board
             [StartMeasurement c; Elapse d0; PinChange p; Elapse d1; Poll]) s)
    = [true] /\
  echoInterruptEnabled board
    (exec (run board
             [StartMeasurement c; Elapse d0; PinChange p; Elapse d1; Poll]) s)
    = false /\
  sUSPulseMicros
    (exec (run board
             [StartMeasurement c; Elapse d0; PinChange p; Elapse d1; Poll]) s)
    = 0.
Proof.
  intros Hp Hnow Hd.
  pose proof (start_state board c s) as HS. cbv zeta in HS.
  destruct HS as (Sv & _ & Sp & St & _).
  pose proof (nonBlockingTimeoutMicros_nonneg c) as H0.
  revert Hnow. run_steps. intros Hnow.
  destruct (timeout_after_rising_edge board d0 p d1
    (exec (startUSDistanceAsCentiMeterWithCentimeterTimeoutNonBlocking board c)
       s)) as (R1 & R2 & R3).
  - exact Sv.
  - exact Hp.
  - exact Hnow.
  - rewrite St. exact Hd.
  - lia.
  - rewrite R1, R2, R3. simpl map.
    split; [reflexivity | split; [reflexivity | exact Sp]].
Qed.

Lemma C1_timeout_after_rising_edge_witness :
  0 < 16 /\
  map fst
    (eval (run atmega328p
             [StartMeasurement 100; Elapse 500; PinChange 16; Elapse 5825;
              Poll]) twoPins)
    = [true].
Proof.
  split; [lia |].
  apply (C1_timeout_after_rising_edge atmega328p 100 500 16 5825 twoPins).
  - lia.
  - vm_compute. discriminate.
  - split; [vm_compute; discriminate | reflexivity].
Defined.

(** C1 as stated fails: with the pins 5 and 4 initialised, a measurement
    started with a timeout of 100 cm (5825 us) and no edge at all is
    still reported as not done one second later, and the interrupt of
    the echo pin is still enabled. *)
Lemma C1_no_edge_no_timeout :
  sTimeoutMicros (exec (run atmega328p [StartMeasurement 100]) twoPins)
    = 5825 /\
  eval (run atmega328p [StartMeasurement 100; Elapse 1000000; Poll]) twoPins
    = [(false, 0)] /\
  echoInterruptEnabled atmega328p
    (exec (run atmega328p [StartMeasurement 100; Elapse 1000000; Poll])
       twoPins) = true.
Proof. repeat split; vm_compute; reflexivity. Qed.

(** *** The interrupt service routines *)

Lemma bit_small (b : Z) : 0 <= b < 8 -> bit b = 2 ^ b.
Proof.
  intros Hb. unfold bit. rewrite Z.shiftl_1_l.
  apply to_ulong_small. unfold two32.
  split; [apply Z.pow_nonneg; lia |].
  apply Z.lt_le_trans with (2 ^ 8); [| lia].
  apply Z.pow_lt_mono_r; lia.
Qed.

Lemma land_bit (x b : Z) :
  0 <= b < 8 ->
  Z.land x (bit b) = if Z.testbit x b then 2 ^ b else 0.
Proof.
  intros Hb. rewrite bit_small by exact Hb.
  apply Z.bits_inj'. intros n Hn.
  rewrite Z.land_spec, Z.pow2_bits_eqb by lia.
  destruct (Z.eqb_spec b n) as [-> | Hne].
  - destruct (Z.testbit x n); simpl.
    + rewrite Z.pow2_bits_true by lia. reflexivity.
    + rewrite Z.bits_0. reflexivity.
  - rewrite andb_false_r.
    destruct (Z.testbit x b).
    + rewrite Z.pow2_bits_false by lia. reflexivity.
    + rewrite Z.bits_0. reflexivity.
Qed.

(** The port state handed to the handler is positive exactly when the
    echo pin reads high: a high level is the start of a pulse, a low
    level its end. *)
Lemma ISR_PCINT_level (board : Board) (portInput : Z) (s : Sys) :
  0 <= digitalPinToPCMSKbit board (sEchoInPin s) < 8 ->
  ISR_PCINT board portInput s =
  handlePCInterrupt
    (if Z.testbit portInput (digitalPinToPCMSKbit board (sEchoInPin s))
     then 2 ^ digitalPinToPCMSKbit board (sEchoInPin s) else 0) s.
Proof.
  intros Hb. unfold ISR_PCINT, bind, read.
  rewrite land_bit by exact Hb.
  destruct (Z.testbit portInput (digitalPinToPCMSKbit board (sEchoInPin s))).
  - unfold to_u8. rewrite Z.mod_small; [reflexivity |].
    unfold two8. split; [apply Z.pow_nonneg; lia |].
    apply Z.lt_le_trans with (2 ^ 8); [| lia].
    apply Z.pow_lt_mono_r; lia.
  - reflexivity.
Qed.

(** The success branch of the poll: done, the stored pulse converted,
    and neither the validity flag, nor the pulse, nor the registers
    touched. *)
Lemma poll_valid_state (board : Board) (s : Sys) :
  sUSValueIsValid s = true ->
  eval (isUSDistanceMeasureFinished board) s = true /\
  exec (isUSDistanceMeasureFinished board) s =
    set_sUSDistanceCentimeter
      (getCentimeterFromUSMicroSeconds (to_uint (sUSPulseMicros s))) s.
Proof.
  intros Hv. unfold eval, exec. rewrite poll_valid by exact Hv.
  split; reflexivity.
Qed.

(** A complete echo pulse of width [delta], then a poll. *)
Lemma pulse_measured (board : Board) (d0 p delta d1 : Z) (s0 : Sys) :
  0 < p ->
  0 <= delta < two32 ->
  eval (pollMeasurement board)
    (exec (elapse d1)
       (exec (handlePCInterrupt 0)
          (exec (elapse delta)
             (exec (handlePCInterrupt p) (exec (elapse d0) s0)))))
  = (true, getCentimeterFromUSMicroSeconds (to_uint delta)).
Proof.
  intros Hp Hdelta.
  rewrite (rising_edge_state p) by exact Hp.
  rewrite (falling_edge_state 0) by lia.
  rewrite eval_pollMeasurement, !elapse_state.
  match goal with
  | |- (eval _ ?s3, _) = _ =>
      destruct (poll_valid_state board s3) as [R1 R2]; [reflexivity |]
  end.
  rewrite R1, R2. destruct_sys s0. unfold now. simpl.
  rewrite elapsed_since by exact Hdelta. reflexivity.
Qed.

(** Any pulse width that fits the [unsigned long] counter: the poll
    reports the conversion of the width reduced to an [unsigned int]. *)
Lemma pulse_then_poll_any_width
    (board : Board) (c d0 p delta d1 : Z) (s : Sys) :
  0 < p ->
  0 <= delta < two32 ->
  eval (run board
          [StartMeasurement c; Elapse d0; PinChange p; Elapse delta;
           PinChange 0; Elapse d1; Poll]) s
  = [(true, getCentimeterFromUSMicroSeconds (to_uint delta))].
Proof.
  intros Hp Hdelta. run_steps.
  rewrite <- eval_pollMeasurement.
  rewrite pulse_measured by assumption. reflexivity.
Qed.

(** C4, as the code has it: for a pulse width delta that fits an
    [unsigned int] (delta < 65536), a rising edge and a falling edge
    delta microseconds apart make the poll report done with
    microsecondsToCentimeters(delta); a poll made right after the start
    reports not done. *)
Theorem C4_pulse_then_poll
    (board : Board) (c d0 p delta d1 : Z) (s : Sys) :
  0 < p ->
  0 <= delta < two16 ->
  map fst (eval (run board [StartMeasurement c; Poll]) s) = [false] /\
  eval (run board
          [StartMeasurement c; Elapse d0; PinChange p; Elapse delta;
           PinChange 0; Elapse d1; Poll]) s
  = [(true, microsecondsToCentimeters delta)].
Proof.
  intros Hp Hdelta. split.
  - pose proof (start_state board c s) as HS. cbv zeta in HS.
    destruct HS as (Sv & Ss & _).
    run_steps. unfold eval at 1. rewrite poll_no_edge by assumption.
    reflexivity.
  - rewrite pulse_then_poll_any_width
      by (try assumption; unfold two16, two32 in *; lia).
    rewrite to_uint_small by exact Hdelta.
    rewrite getCentimeterFromUSMicroSeconds_spec by exact Hdelta.
    reflexivity.
Qed.

Lemma C4_pulse_then_poll_witness :
  0 < 16 /\
  eval (run atmega328p
          [StartMeasurement 100; Elapse 500; PinChange 16; Elapse 5825;
           PinChange 0; Elapse 30; Poll]) twoPins
  = [(true, microsecondsToCentimeters 5825)].
Proof.
  split; [lia |].
  apply (C4_pulse_then_poll atmega328p 100 500 16 5825 30 twoPins).
  - lia.
  - unfold two16. lia.
Defined.

(** C4 as stated fails for wide pulses: edges 65536 us apart make the
    poll report 0 cm, while microsecondsToCentimeters(65536) is 1125:
    the stored duration is narrowed to [unsigned int] when it is handed
    to the conversion. *)
Lemma C4_wide_pulse_is_truncated :
  eval (run atmega328p
          [StartMeasurement 100; Elapse 500; PinChange 16; Elapse 65536;
           PinChange 0; Poll]) twoPins
  = [(true, 0)] /\
  microsecondsToCentimeters 65536 = 1125.
Proof. split; vm_compute; reflexivity. Qed.

(** C9, as the code has it: when the first edge handled after the start
    is a falling edge (port state 0), the handler sets the validity flag
    and stores the current time minus 0 as the pulse duration; the next
    poll reports done with that duration, reduced modulo 2^16 because it
    is handed to the conversion as an [unsigned int], converted to
    centimeters; for a time below 65536 microseconds this is
    microsecondsToCentimeters of the duration itself.  Before the edge
    time may pass and the driver may be polled. *)
Theorem C9_falling_edge_first
    (board : Board) (c d : Z) (pre : list Step) (s : Sys) :
  forallb noEdge pre = true ->
  sUSValueIsValid
    (exec (run board (StartMeasurement c :: pre ++ [PinChange 0])) s)
    = true /\
  sUSPulseMicros
    (exec (run board (StartMeasurement c :: pre ++ [PinChange 0])) s)
    = now (exec (run board (StartMeasurement c :: pre)) s) /\
  eval (run board [Elapse d; Poll])
    (exec (run board (StartMeasurement c :: pre ++ [PinChange 0])) s)
  = [(true,
      microsecondsToCentimeters
        (now (exec (run board (StartMeasurement c :: pre)) s) mod two16))] /\
  (now (exec (run board (StartMeasurement c :: pre)) s) < two16 ->
   eval (run board [Elapse d; Poll])
     (exec (run board (StartMeasurement c :: pre ++ [PinChange 0])) s)
   = [(true,
       microsecondsToCentimeters
         (now (exec (run board (StartMeasurement c :: pre)) s)))]).
Proof.
  intros Hpre.
  pose proof (start_state board c s) as HS. cbv zeta in HS.
  destruct HS as (Sv & Ss & _).
  rewrite !exec_run_cons, exec_run_app, exec_step_start.
  destruct (no_edges_never_done board pre _ Sv Ss Hpre) as (_ & Hv & Hs).
  remember (exec (run board pre)
              (exec (startUSDistanceAsCentiMeterWithCentimeterTimeoutNonBlocking
                       board c) s)) as s1 eqn:Es1.
  clear Es1 Sv Ss.
  assert (Hpoll :
    eval (run board [Elapse d; Poll])
      (exec (run board [PinChange 0]) s1)
    = [(true, microsecondsToCentimeters (now s1 mod two16))]).
  { run_steps. rewrite (falling_edge_state 0) by lia.
    rewrite Hs, Z.sub_0_r, to_ulong_now, elapse_state.
    match goal with
    | |- [(eval _ ?s3, _)] = _ =>
        destruct (poll_valid_state board s3) as [R1 R2]; [reflexivity |]
    end.
    rewrite R1, R2.
    rewrite <- (getCentimeterFromUSMicroSeconds_spec (now s1 mod two16))
      by (apply Z.mod_pos_bound; reflexivity).
    destruct_sys s1. reflexivity. }
  split; [| split; [| split]].
  - run_steps. rewrite (falling_edge_state 0) by lia. reflexivity.
  - run_steps. rewrite (falling_edge_state 0) by lia.
    rewrite Hs, Z.sub_0_r, to_ulong_now. reflexivity.
  - exact Hpoll.
  - intros Hsmall. rewrite Hpoll.
    rewrite Z.mod_small; [reflexivity |].
    split; [| exact Hsmall]. unfold now, to_ulong.
    apply Z.mod_pos_bound. reflexivity.
Qed.

Lemma C9_falling_edge_first_witness :
  forallb noEdge [Elapse 200; Poll; Elapse 300] = true /\
  eval (run atmega328p [Elapse 10; Poll])
    (exec (run atmega328p
             (StartMeasurement 100 :: [Elapse 200; Poll; Elapse 300]
                ++ [PinChange 0])) (set_clock 1000000 twoPins))
  = [(true, 299)].
Proof.
  split; [reflexivity |].
  exact (proj1 (proj2 (proj2
           (C9_falling_edge_first atmega328p 100 10
              [Elapse 200; Poll; Elapse 300] (set_clock 1000000 twoPins)
              eq_refl)))).
Defined.

(** C9 as stated fails for late edges: with the counter at 1000000 a
    first falling edge stores a duration of 1000510 microseconds, which
    converts to 17176 cm, but the poll reports 299 cm, the conversion of
    1000510 mod 65536 = 17470. *)
Lemma C9_spurious_duration_is_narrowed :
  sUSPulseMicros
    (exec (run atmega328p
             (StartMeasurement 100 :: [Elapse 200; Poll; Elapse 300]
                ++ [PinChange 0])) (set_clock 1000000 twoPins))
    = 1000510 /\
  eval (run atmega328p [Elapse 10; Poll])
    (exec (run atmega328p
             (StartMeasurement 100 :: [Elapse 200; Poll; Elapse 300]
                ++ [PinChange 0])) (set_clock 1000000 twoPins))
    = [(true, 299)] /\
  microsecondsToCentimeters 1000510 = 17176.
Proof. repeat split; vm_compute; reflexivity. Qed.

(** *** After completion *)

(** What a quiet step leaves alone once the value is valid; a poll among
    them reports done with the stored pulse converted. *)
Lemma quiet_step_invariant (board : Board) (st : Step) (s : Sys) :
  sUSValueIsValid s = true ->
  quiet st = true ->
  (sUSValueIsValid (exec (step board st) s) = true /\
   sUSPulseMicros (exec (step board st) s) = sUSPulseMicros s /\
   sEchoInPin (exec (step board st) s) = sEchoInPin s /\
   regs (exec (step board st) s) = regs s) /\
  (eval (step board st) s = None \/
   eval (step board st) s =
     Some (true,
           getCentimeterFromUSMicroSeconds (to_uint (sUSPulseMicros s)))).
Proof.
  intros Hv Hq. destruct st as [c | p | d |]; simpl in Hq.
  - discriminate.
  - apply Z.ltb_lt in Hq.
    rewrite exec_step_pin_change, eval_step_pin_change.
    rewrite rising_edge_state by exact Hq.
    destruct_sys s. repeat split; try assumption. left. reflexivity.
  - rewrite exec_step_elapse, eval_step_elapse, elapse_state.
    destruct_sys s. repeat split; try assumption. left. reflexivity.
  - rewrite exec_step_poll, eval_step_poll.
    destruct (poll_valid_state board s Hv) as [R1 R2]. rewrite R1, R2.
    destruct_sys s. repeat split; try assumption. right. reflexivity.
Qed.

Lemma quiet_run_invariant (board : Board) (sts : list Step) (s : Sys) :
  sUSValueIsValid s = true ->
  forallb quiet sts = true ->
  Forall
    (fun r => r = (true,
                   getCentimeterFromUSMicroSeconds
                     (to_uint (sUSPulseMicros s))))
    (eval (run board sts) s) /\
  sUSValueIsValid (exec (run board sts) s) = true /\
  sUSPulseMicros (exec (run board sts) s) = sUSPulseMicros s /\
  sEchoInPin (exec (run board sts) s) = sEchoInPin s /\
  regs (exec (run board sts) s) = regs s.
Proof.
  revert s. induction sts as [| st sts IH]; intros s Hv Hq.
  - rewrite exec_run_nil, eval_run_nil. repeat split; [constructor | exact Hv].
  - simpl in Hq. apply andb_true_iff in Hq. destruct Hq as [Hst Hq].
    destruct (quiet_step_invariant board st s Hv Hst)
      as [(I1 & I2 & I3 & I4) Hout].
    destruct (IH (exec (step board st) s) I1 Hq) as (F & J1 & J2 & J3 & J4).
    rewrite exec_run_cons, eval_run_cons.
    rewrite I2 in F, J2. rewrite I3 in J3. rewrite I4 in J4.
    repeat split; try assumption.
    destruct Hout as [Hout | Hout]; rewrite Hout; [exact F |].
    constructor; [reflexivity | exact F].
Qed.

(** Without a start in between the validity flag, the echo pin and the
    registers stay as they are, whatever edges are handled, and every
    poll reports done. *)
Lemma start_free_run_invariant (board : Board) (sts : list Step) (s : Sys) :
  sUSValueIsValid s = true ->
  existsb isStart sts = false ->
  Forall (fun r => fst r = true) (eval (run board sts) s) /\
  sUSValueIsValid (exec (run board sts) s) = true /\
  sEchoInPin (exec (run board sts) s) = sEchoInPin s /\
  regs (exec (run board sts) s) = regs s.
Proof.
  revert s. induction sts as [| st sts IH]; intros s Hv Hq.
  - rewrite exec_run_nil, eval_run_nil.
    repeat split; [constructor | exact Hv].
  - simpl in Hq. apply orb_false_iff in Hq. destruct Hq as [Hst Hq].
    rewrite exec_run_cons, eval_run_cons.
    destruct st as [c | p | d |]; try discriminate.
    + rewrite exec_step_pin_change, eval_step_pin_change.
      destruct (Z.ltb_spec 0 p) as [Hp | Hp].
      * rewrite rising_edge_state by exact Hp.
        destruct (IH (set_sMicrosAtStartOfPulse (now s) s))
          as (F & V & E & R); [exact Hv | exact Hq |].
        repeat split; assumption.
      * rewrite falling_edge_state by exact Hp.
        destruct (IH (set_sUSValueIsValid true
                        (set_sUSPulseMicros
                           (to_ulong (now s - sMicrosAtStartOfPulse s)) s)))
          as (F & V & E & R); [reflexivity | exact Hq |].
        repeat split; assumption.
    + rewrite exec_step_elapse, eval_step_elapse, elapse_state.
      destruct (IH (set_clock (to_ulong (clock s + d)) s))
        as (F & V & E & R); [exact Hv | exact Hq |].
      repeat split; assumption.
    + rewrite exec_step_poll, eval_step_poll.
      destruct (poll_valid_state board s Hv) as [R1 R2]. rewrite R1, R2.
      destruct (IH (set_sUSDistanceCentimeter
                      (getCentimeterFromUSMicroSeconds
                         (to_uint (sUSPulseMicros s))) s))
        as (F & V & E & R); [exact Hv | exact Hq |].
      repeat split; try assumption.
      constructor; [reflexivity | exact F].
Qed.

(** The start switches the pin change interrupt of the echo pin on: the
    mask bit of the pin and the enable bit of its group in PCICR. *)
Lemma start_enables_interrupt (board : Board) (c : Z) (s : Sys) :
  0 <= digitalPinToPCMSKbit board (sEchoInPin s) < 8 ->
  0 <= digitalPinToPCICRbit board (sEchoInPin s) < 8 ->
  digitalPinToPCMSK board (sEchoInPin s) <> PCICR ->
  digitalPinToPCMSK board (sEchoInPin s) <> PCIFR ->
  echoInterruptEnabled board
    (exec (startUSDistanceAsCentiMeterWithCentimeterTimeoutNonBlocking board c)
       s) = true /\
  Z.testbit
    (regs (exec (startUSDistanceAsCentiMeterWithCentimeterTimeoutNonBlocking
                   board c) s) PCICR)
    (digitalPinToPCICRbit board (sEchoInPin s)) = true.
Proof.
  intros Hb Hg H1 H2. split.
  - apply start_arms_interrupt; assumption.
  - destruct_sys s. apply set_bit_testbit. exact Hg.
Qed.

(** C10, as the code has it: once the validity flag is set, every later
    poll before the next start reports done, whatever edges are handled
    in between, and with the same centimeter result as long as no
    further falling edge is handled; neither the poll nor the handler
    clears the validity flag or touches the interrupt enable of the echo
    pin.  The start does: it clears the validity flag, so that a poll
    right after it reports not done, and it switches the interrupt of
    the echo pin on. *)
Theorem C10_poll_repeats_result
    (board : Board) (sts : list Step) (c : Z) (s : Sys) :
  sUSValueIsValid s = true ->
  existsb isStart sts = false ->
  Forall (fun r => fst r = true) (eval (run board sts) s) /\
  (forallb quiet sts = true ->
   Forall
     (fun r => r = (true,
                    getCentimeterFromUSMicroSeconds
                      (to_uint (sUSPulseMicros s))))
     (eval (run board sts) s)) /\
  sUSValueIsValid (exec (run board sts) s) = true /\
  echoInterruptEnabled board (exec (run board sts) s)
    = echoInterruptEnabled board s /\
  regs (exec (run board sts) s) = regs s /\
  sUSValueIsValid (exec (run board (sts ++ [StartMeasurement c])) s)
    = false /\
  map fst (eval (run board [StartMeasurement c; Poll])
             (exec (run board sts) s)) = [false] /\
  (0 <= digitalPinToPCMSKbit board (sEchoInPin s) < 8 ->
   0 <= digitalPinToPCICRbit board (sEchoInPin s) < 8 ->
   digitalPinToPCMSK board (sEchoInPin s) <> PCICR ->
   digitalPinToPCMSK board (sEchoInPin s) <> PCIFR ->
   echoInterruptEnabled board
     (exec (run board (sts ++ [StartMeasurement c])) s) = true /\
   Z.testbit (regs (exec (run board (sts ++ [StartMeasurement c])) s) PCICR)
     (digitalPinToPCICRbit board (sEchoInPin s)) = true).
Proof.
  intros Hv Hs.
  destruct (start_free_run_invariant board sts s Hv Hs) as (F & V & E & R).
  pose proof (start_state board c (exec (run board sts) s)) as HS.
  cbv zeta in HS. destruct HS as (Sv & Ss & _).
  assert (Hrun : exec (run board (sts ++ [StartMeasurement c])) s =
                 exec (startUSDistanceAsCentiMeterWithCentimeterTimeoutNonBlocking
                         board c) (exec (run board sts) s)).
  { rewrite exec_run_app. run_steps. reflexivity. }
  split; [exact F |].
  split.
  { intros Hq. apply (quiet_run_invariant board sts s Hv Hq). }
  split; [exact V |].
  split; [unfold echoInterruptEnabled; rewrite E, R; reflexivity |].
  split; [exact R |].
  split; [rewrite Hrun; exact Sv |].
  split.
  - run_steps. unfold eval at 1. rewrite poll_no_edge by assumption.
    reflexivity.
  - intros Hb Hg H1 H2. rewrite Hrun. rewrite <- E in Hb, Hg, H1, H2 |- *.
    apply start_enables_interrupt; assumption.
Qed.

Lemma C10_poll_repeats_result_witness :
  sUSValueIsValid
    (exec (run atmega328p
             [StartMeasurement 100; Elapse 500; PinChange 16; Elapse 5825;
              PinChange 0; Poll]) twoPins) = true /\
  existsb isStart [Poll; Elapse 1000; Poll; PinChange 16; Poll] = false /\
  Forall (fun r => fst r = true)
    (eval (run atmega328p [Poll; Elapse 1000; Poll; PinChange 16; Poll])
       (exec (run atmega328p
                [StartMeasurement 100; Elapse 500; PinChange 16; Elapse 5825;
                 PinChange 0; Poll]) twoPins)).
Proof.
  split; [reflexivity |]. split; [reflexivity |].
  exact (proj1
           (C10_poll_repeats_result atmega328p
              [Poll; Elapse 1000; Poll; PinChange 16; Poll] 100
              (exec (run atmega328p
                       [StartMeasurement 100; Elapse 500; PinChange 16;
                        Elapse 5825; PinChange 0; Poll]) twoPins)
              eq_refl eq_refl)).
Defined.

(** C10 as stated fails when a further falling edge is handled: with no
    start in between, the poll before it reports 100 cm and the poll
    after it 340 cm, because the handler stores a new pulse duration. *)
Lemma C10_later_falling_edge_changes_result :
  eval (run atmega328p
          [StartMeasurement 100; Elapse 500; PinChange 16; Elapse 5825;
           PinChange 0; Poll; Elapse 14000; PinChange 0; Poll]) twoPins
  = [(true, 100); (true, 340)].
Proof. vm_compute. reflexivity. Qed.

(** Only the start clears the validity flag: whatever edges arrive,
    every poll made before the next start reports done. *)
Lemma valid_until_next_start (board : Board) (sts : list Step) (s : Sys) :
  sUSValueIsValid s = true ->
  forallb (fun st => match st with StartMeasurement _ => false | _ => true end)
    sts = true ->
  Forall (fun r => fst r = true) (eval (run board sts) s) /\
  sUSValueIsValid (exec (run board sts) s) = true.
Proof.
  revert s. induction sts as [| st sts IH]; intros s Hv Hq.
  - rewrite exec_run_nil, eval_run_nil. split; [constructor | exact Hv].
  - simpl in Hq. apply andb_true_iff in Hq. destruct Hq as [Hst Hq].
    rewrite exec_run_cons, eval_run_cons.
    destruct st as [c | p | d |]; try discriminate.
    + rewrite exec_step_pin_change, eval_step_pin_change.
      apply IH; [| exact Hq].
      destruct (Z.ltb_spec 0 p) as [Hp | Hp].
      * rewrite rising_edge_state by exact Hp. destruct_sys s. exact Hv.
      * rewrite falling_edge_state by exact Hp. reflexivity.
    + rewrite exec_step_elapse, eval_step_elapse.
      apply IH; [| exact Hq]. destruct_sys s. exact Hv.
    + rewrite exec_step_poll, eval_step_poll.
      destruct (poll_valid_state board s Hv) as [R1 R2]. rewrite R1, R2.
      destruct (IH (set_sUSDistanceCentimeter
                      (getCentimeterFromUSMicroSeconds
                         (to_uint (sUSPulseMicros s))) s)) as [F V].
      * destruct_sys s. exact Hv.
      * exact Hq.
      * split; [constructor; [reflexivity | exact F] | exact V].
Qed.

(** *** The stored timeout *)

(** C3: at a timeout of 300 cm (the value the application passes to the
    blocking call) the non-blocking start stores 1091 us in
    [sTimeoutMicros], whereas floor((300 * 233 + 2) / 4), which the
    blocking path computes, is 17475 us: the [unsigned int] product
    wraps around modulo 2^16. *)
Theorem C3_nonblocking_timeout_wraps_at_300 (board : Board) (s : Sys) :
  sTimeoutMicros
    (exec (startUSDistanceAsCentiMeterWithCentimeterTimeoutNonBlocking
             board 300) s) = 1091 /\
  tTimeoutMicros 300 = 17475 /\
  centimetersToTimeoutMicros 300 = 17475.
Proof.
  pose proof (start_state board 300 s) as HS. cbv zeta in HS.
  destruct HS as (_ & _ & _ & St & _).
  rewrite St. repeat split; reflexivity.
Qed.

(** Up to 281 cm the two paths agree, and both compute the formula. *)
Lemma timeouts_agree_up_to_281 (c : Z) :
  0 <= c <= 281 ->
  nonBlockingTimeoutMicros c = tTimeoutMicros c /\
  tTimeoutMicros c = centimetersToTimeoutMicros c.
Proof.
  intros H. rewrite nonBlockingTimeoutMicros_spec by exact H.
  rewrite tTimeoutMicros_spec by lia. split; reflexivity.
Qed.

(** The timeout branch of the poll does not write
    [sUSDistanceCentimeter]: after a timeout the caller still reads the
    result of the measurement before. *)
Lemma timeout_keeps_previous_result :
  eval (run atmega328p
          [StartMeasurement 100; Elapse 500; PinChange 16; Elapse 5825;
           PinChange 0; Poll;
           StartMeasurement 100; Elapse 500; PinChange 16; Elapse 6000; Poll])
    twoPins
  = [(true, 100); (true, 100)].
Proof. vm_compute. reflexivity. Qed.

(** * Further properties of the driver *)

(** ** Conversions *)

Lemma centimeters_range (d : Z) :
  0 <= d < two16 -> 0 <= getCentimeterFromUSMicroSeconds d <= 1125.
Proof.
  intros H. rewrite getCentimeterFromUSMicroSeconds_spec by exact H.
  unfold microsecondsToCentimeters, two16 in *. zdiv.
Qed.

(** X1: on the [unsigned int] range the conversion to centimeters never
    decreases when the pulse gets longer, and it never exceeds 1125. *)
Theorem X1_centimeters_monotone_and_bounded (d1 d2 : Z) :
  0 <= d1 <= d2 ->
  d2 < two16 ->
  0 <= getCentimeterFromUSMicroSeconds d1 /\
  getCentimeterFromUSMicroSeconds d1 <= getCentimeterFromUSMicroSeconds d2 /\
  getCentimeterFromUSMicroSeconds d2 <= 1125.
Proof.
  intros H1 H2. unfold two16 in H2.
  rewrite !getCentimeterFromUSMicroSeconds_spec by (unfold two16; lia).
  unfold microsecondsToCentimeters. zdiv.
Qed.

Lemma X1_centimeters_monotone_and_bounded_witness :
  0 <= 2914 <= 5825 /\
  getCentimeterFromUSMicroSeconds 2914 <= getCentimeterFromUSMicroSeconds 5825.
Proof.
  split; [lia |].
  apply (X1_centimeters_monotone_and_bounded 2914 5825);
    [lia | reflexivity].
Defined.

(** X2: a pulse that is not longer than the timeout computed by the
    blocking path for [c] centimeters converts to at most [c]
    centimeters. *)
Theorem X2_pulse_within_timeout_is_within_distance (c d : Z) :
  0 <= c <= 1125 ->
  0 <= d <= tTimeoutMicros c ->
  getCentimeterFromUSMicroSeconds d <= c.
Proof.
  intros Hc Hd. rewrite tTimeoutMicros_spec in Hd by exact Hc.
  unfold centimetersToTimeoutMicros in Hd.
  assert (Hq : (c * 233 + 2) / 4 < two16)
    by (unfold two16; apply Z.div_lt_upper_bound; lia).
  rewrite getCentimeterFromUSMicroSeconds_spec by lia.
  unfold microsecondsToCentimeters. zdiv.
Qed.

Lemma X2_pulse_within_timeout_is_within_distance_witness :
  0 <= 300 <= 1125 /\ 0 <= 17475 <= tTimeoutMicros 300 /\
  getCentimeterFromUSMicroSeconds 17475 <= 300.
Proof.
  assert (Hc : 0 <= 300 <= 1125) by lia.
  assert (Hd : 0 <= 17475 <= tTimeoutMicros 300)
    by (split; [lia | vm_compute; discriminate]).
  split; [exact Hc |]. split; [exact Hd |].
  apply (X2_pulse_within_timeout_is_within_distance 300 17475 Hc Hd).
Defined.

(** X3: for an [unsigned int] argument the timeout of the blocking path
    is the exact value floor((c * 233 + 2) / 4) if and only if
    c <= 1125; beyond, the quotient no longer fits the [unsigned int]
    it is stored in. *)
Theorem X3_blocking_timeout_exact_iff (c : Z) :
  0 <= c < two16 ->
  (tTimeoutMicros c = centimetersToTimeoutMicros c <-> c <= 1125).
Proof.
  intros Hc. unfold two16 in Hc. split.
  - intros Heq.
    destruct (Z.le_gt_cases c 1125) as [Hle | Hgt]; [exact Hle | exfalso].
    assert (Hr : 0 <= tTimeoutMicros c < two16).
    { unfold tTimeoutMicros, to_uint. apply Z.mod_pos_bound. reflexivity. }
    rewrite Heq in Hr. unfold centimetersToTimeoutMicros, two16 in Hr.
    zdiv.
  - intros Hle. apply tTimeoutMicros_spec. lia.
Qed.

Lemma X3_blocking_timeout_exact_iff_witness :
  0 <= 300 < two16 /\
  (tTimeoutMicros 300 = centimetersToTimeoutMicros 300 <-> 300 <= 1125).
Proof.
  assert (Hc : 0 <= 300 < two16) by (unfold two16; lia).
  split; [exact Hc |].
  apply (X3_blocking_timeout_exact_iff 300 Hc).
Defined.

(** X4: whatever timeout is requested, the non-blocking start stores a
    timeout below 16384 microseconds. *)
Theorem X4_nonblocking_timeout_below_16384 (board : Board) (c : Z) (s : Sys) :
  0 <= sTimeoutMicros
         (exec (startUSDistanceAsCentiMeterWithCentimeterTimeoutNonBlocking
                  board c) s) < 16384.
Proof.
  pose proof (start_state board c s) as HS. cbv zeta in HS.
  destruct HS as (_ & _ & _ & St & _). rewrite St.
  unfold nonBlockingTimeoutMicros, to_uint, two16. zdiv.
Qed.

(** ** Blocking measurement *)

Lemma getUSDistance_result (board : Board) (t : Z) (s : Sys) :
  sHCSR04Mode s <> HCSR04_MODE_UNITITIALIZED ->
  eval (getUSDistance board t) s = to_uint (pendingPulse s) /\
  echoPulses (exec (getUSDistance board t) s) = tl (echoPulses s) /\
  driverGlobals (exec (getUSDistance board t) s) = driverGlobals s /\
  regs (exec (getUSDistance board t) s) = regs s.
Proof.
  intros Hm. destruct_sys s. unfold pendingPulse, driverGlobals. simpl.
  destruct mode; [congruence | |];
    destruct (usesPulseInLong board) eqn:Hb, ep as [| p rest];
    unfold getUSDistance, eval, exec, bind, read; simpl; rewrite Hb; simpl;
    repeat split; reflexivity.
Qed.

Lemma getUSDistanceAsCentiMeter_eval (board : Board) (t : Z) (s : Sys) :
  eval (getUSDistanceAsCentiMeter board t) s =
  getCentimeterFromUSMicroSeconds (eval (getUSDistance board t) s).
Proof.
  unfold getUSDistanceAsCentiMeter, eval, bind, ret.
  destruct (getUSDistance board t s); reflexivity.
Qed.

Lemma to_uint_range (x : Z) : 0 <= to_uint x < two16.
Proof. unfold to_uint. apply Z.mod_pos_bound. reflexivity. Qed.

(** X5: once the pins are initialised a blocking measurement returns the
    pulse reported by the hardware, reduced to an [unsigned int], uses
    up exactly that one pulse, and changes neither the globals of the
    driver nor the interrupt registers. *)
Theorem X5_blocking_measurement_result (board : Board) (t : Z) (s : Sys) :
  sHCSR04Mode s <> HCSR04_MODE_UNITITIALIZED ->
  eval (getUSDistance board t) s = to_uint (pendingPulse s) /\
  eval (getUSDistanceAsCentiMeter board t) s =
    getCentimeterFromUSMicroSeconds (to_uint (pendingPulse s)) /\
  echoPulses (exec (getUSDistanceAsCentiMeter board t) s)
    = tl (echoPulses s) /\
  driverGlobals (exec (getUSDistanceAsCentiMeter board t) s)
    = driverGlobals s /\
  regs (exec (getUSDistanceAsCentiMeter board t) s) = regs s.
Proof.
  intros Hm.
  destruct (getUSDistance_result board t s Hm) as (R & E & G & Rg).
  rewrite getUSDistanceAsCentiMeter_eval, getUSDistanceAsCentiMeter_exec, R.
  repeat split; assumption.
Qed.

Lemma X5_blocking_measurement_result_witness :
  sHCSR04Mode twoPins <> HCSR04_MODE_UNITITIALIZED /\
  eval (getUSDistance atmega328p 17475) twoPins = to_uint (pendingPulse twoPins).
Proof.
  assert (Hm : sHCSR04Mode twoPins <> HCSR04_MODE_UNITITIALIZED)
    by discriminate.
  split; [exact Hm |].
  apply (X5_blocking_measurement_result atmega328p 17475 twoPins Hm).
Defined.

(** X6: two blocking measurements in a row for which the hardware
    reports the same pulse return the same distance. *)
Theorem X6_same_pulse_same_distance
    (board : Board) (t p : Z) (rest : list Z) (s : Sys) :
  sHCSR04Mode s <> HCSR04_MODE_UNITITIALIZED ->
  echoPulses s = p :: p :: rest ->
  eval (getUSDistanceAsCentiMeter board t)
    (exec (getUSDistanceAsCentiMeter board t) s)
  = eval (getUSDistanceAsCentiMeter board t) s.
Proof.
  intros Hm Hp.
  destruct (getUSDistance_result board t s Hm) as (R1 & E1 & G1 & _).
  rewrite <- getUSDistanceAsCentiMeter_exec in E1, G1.
  assert (Hm' : sHCSR04Mode (exec (getUSDistanceAsCentiMeter board t) s)
                <> HCSR04_MODE_UNITITIALIZED).
  { unfold driverGlobals in G1. injection G1 as _ _ Hmode _ _ _ _ _.
    rewrite Hmode. exact Hm. }
  destruct (getUSDistance_result board t _ Hm') as (R2 & _).
  rewrite !getUSDistanceAsCentiMeter_eval, R2, R1.
  unfold pendingPulse. rewrite E1, Hp. reflexivity.
Qed.

Lemma X6_same_pulse_same_distance_witness :
  sHCSR04Mode (set_echoPulses [5825; 5825] twoPins)
    <> HCSR04_MODE_UNITITIALIZED /\
  eval (getUSDistanceAsCentiMeter atmega328p 17475)
    (exec (getUSDistanceAsCentiMeter atmega328p 17475)
       (set_echoPulses [5825; 5825] twoPins))
  = eval (getUSDistanceAsCentiMeter atmega328p 17475)
      (set_echoPulses [5825; 5825] twoPins).
Proof.
  assert (Hm : sHCSR04Mode (set_echoPulses [5825; 5825] twoPins)
               <> HCSR04_MODE_UNITITIALIZED) by discriminate.
  split; [exact Hm |].
  apply (X6_same_pulse_same_distance atmega328p 17475 5825 []
           (set_echoPulses [5825; 5825] twoPins) Hm).
  reflexivity.
Defined.

Lemma centimeter_result_range (board : Board) (t : Z) (s : Sys) :
  0 <= eval (getUSDistanceAsCentiMeter board t) s <= 1125.
Proof.
  rewrite getUSDistanceAsCentiMeter_eval.
  destruct (sHCSR04Mode s) eqn:Hmode.
  - unfold eval. rewrite getUSDistance_uninitialized by exact Hmode.
    simpl. vm_compute. split; discriminate.
  - destruct (getUSDistance_result board t s) as (R & _); [congruence |].
    rewrite R. apply centimeters_range, to_uint_range.
  - destruct (getUSDistance_result board t s) as (R & _); [congruence |].
    rewrite R. apply centimeters_range, to_uint_range.
Qed.

(** X7: in every state, initialised or not, and for every timeout, the
    distance returned by the blocking measurement lies between 0 and
    1125 centimeters. *)
Theorem X7_blocking_distance_range (board : Board) (t : Z) (s : Sys) :
  0 <= eval (getUSDistanceAsCentiMeter board t) s <= 1125 /\
  0 <= eval (getUSDistanceAsCentiMeterWithCentimeterTimeout board t) s <= 1125.
Proof.
  split; [apply centimeter_result_range |].
  unfold getUSDistanceAsCentiMeterWithCentimeterTimeout.
  apply centimeter_result_range.
Qed.

(** X8: initialisation followed by a measurement.  In whatever state the
    driver was, after [initUSDistancePins] with a non-zero echo pin the
    measurement is made in two-pin mode on these pins: the trigger pin is
    raised for 10 microseconds and the pulse is read from the echo pin,
    with no further change of pin direction. *)
Theorem X8_init_two_pins_then_measure
    (board : Board) (aTriggerOutPin aEchoInPin t : Z) (s : Sys) :
  aEchoInPin <> 0 ->
  effects (getUSDistance board t)
    (exec (initUSDistancePins aTriggerOutPin aEchoInPin) s)
  = [DigitalWrite aTriggerOutPin HIGH; DelayMicroseconds 10;
     DigitalWrite aTriggerOutPin LOW]
    ++ pulseEvents board aEchoInPin t /\
  effects (initUSDistancePins aTriggerOutPin aEchoInPin) s
  = [PinMode aTriggerOutPin OUTPUT; PinMode aEchoInPin INPUT] /\
  eval (getUSDistance board t)
    (exec (initUSDistancePins aTriggerOutPin aEchoInPin) s)
  = to_uint (pendingPulse s).
Proof.
  intros He. apply Z.eqb_neq in He.
  assert (Hs : exec (initUSDistancePins aTriggerOutPin aEchoInPin) s =
               set_sHCSR04Mode HCSR04_MODE_USE_2_PINS
                 (set_trace (trace s ++ [PinMode aTriggerOutPin OUTPUT;
                                         PinMode aEchoInPin INPUT])
                    (set_sEchoInPin aEchoInPin
                       (set_sTriggerOutPin aTriggerOutPin s)))).
  { destruct_sys s. unfold initUSDistancePins, exec, bind, modify.
    rewrite He. simpl. rewrite <- app_assoc. reflexivity. }
  split; [| split].
  - rewrite getUSDistance_effects_2_pins by (rewrite Hs; reflexivity).
    rewrite Hs. reflexivity.
  - apply effects_of_trace. rewrite Hs. reflexivity.
  - destruct (getUSDistance_result board t
                (exec (initUSDistancePins aTriggerOutPin aEchoInPin) s))
      as (R & _).
    + rewrite Hs. discriminate.
    + rewrite R, Hs. reflexivity.
Qed.

Lemma X8_init_two_pins_then_measure_witness :
  4 <> 0 /\
  effects (initUSDistancePins 5 4) powerOn
  = [PinMode 5 OUTPUT; PinMode 4 INPUT].
Proof.
  assert (He : 4 <> 0) by discriminate.
  split; [exact He |].
  apply (X8_init_two_pins_then_measure atmega328p 5 4 17475 powerOn He).
Defined.

(** X9: [initUSDistancePins] with echo pin 0 is [initUSDistancePin]: both
    leave the same state, access no hardware, and a measurement that
    follows is made in one-pin mode on the given pin, whatever the state
    before. *)
Theorem X9_init_one_pin_then_measure
    (board : Board) (aPin t : Z) (s : Sys) :
  initUSDistancePins aPin 0 s = initUSDistancePin aPin s /\
  effects (initUSDistancePin aPin) s = [] /\
  effects (getUSDistance board t) (exec (initUSDistancePin aPin) s)
  = [DigitalWrite aPin HIGH; PinMode aPin OUTPUT; DelayMicroseconds 10;
     DigitalWrite aPin LOW; DelayMicroseconds 20; PinMode aPin INPUT]
    ++ pulseEvents board aPin t.
Proof.
  split; [reflexivity |].
  split.
  - apply effects_of_trace. destruct_sys s. symmetry. apply app_nil_r.
  - rewrite getUSDistance_effects_1_pin by reflexivity. reflexivity.
Qed.

(** ** Non-blocking measurement *)

Lemma testbit_1 (j : Z) : j <> 0 -> Z.testbit 1 j = false.
Proof. intros Hj. destruct j; [congruence | reflexivity | reflexivity]. Qed.

Lemma bit_testbit_other (b k : Z) :
  0 <= k < 32 -> k <> b -> Z.testbit (bit b) k = false.
Proof.
  intros Hk Hne. unfold bit, to_ulong. change two32 with (2 ^ 32).
  rewrite Z.mod_pow2_bits_low by lia.
  rewrite Z.shiftl_spec by lia. apply testbit_1. lia.
Qed.


Lemma clear_bit_other (reg b k : Z) :
  0 <= k < 8 -> k <> b ->
  Z.testbit (to_u8 (Z.land reg (ulong_not (bit b)))) k = Z.testbit reg k.
Proof.
  intros Hk Hne. unfold to_u8, ulong_not. change two8 with (2 ^ 8).
  rewrite Z.mod_pow2_bits_low by lia.
  rewrite Z.land_spec, Z.lxor_spec.
  unfold to_ulong at 1. change two32 with (2 ^ 32).
  rewrite Z.mod_pow2_bits_low by lia.
  rewrite bit_testbit_other by lia.
  rewrite Z.ones_spec_low by lia. simpl. apply andb_true_r.
Qed.

(** The hardware accesses of the start. *)
Lemma start_effects (board : Board) (c : Z) (s : Sys) :
  exists v1 v2 v3 : Z,
    effects
      (startUSDistanceAsCentiMeterWithCentimeterTimeoutNonBlocking board c) s
    = [DigitalWrite (sTriggerOutPin s) HIGH;
       RegWrite (digitalPinToPCMSK board (sEchoInPin s)) v1;
       RegWrite PCICR v2; RegWrite PCIFR v3;
       DelayMicroseconds 10; DigitalWrite (sTriggerOutPin s) LOW].
Proof.
  destruct_sys s. do 3 eexists. apply effects_of_trace. simpl.
  repeat rewrite <- app_assoc. reflexivity.
Qed.

(** X10: the non-blocking start raises the trigger pin for 10
    microseconds, writes the three interrupt registers in between, and
    never changes the direction of a pin, whatever the mode. *)
Theorem X10_start_trigger_pulse (board : Board) (c : Z) (s : Sys) :
  settleDelay (sTriggerOutPin s)
    (effects
       (startUSDistanceAsCentiMeterWithCentimeterTimeoutNonBlocking board c) s)
  = Some 10 /\
  existsb isPinMode
    (effects
       (startUSDistanceAsCentiMeterWithCentimeterTimeoutNonBlocking board c) s)
  = false /\
  length
    (effects
       (startUSDistanceAsCentiMeterWithCentimeterTimeoutNonBlocking board c) s)
  = 6%nat.
Proof.
  destruct (start_effects board c s) as (v1 & v2 & v3 & He). rewrite He.
  unfold settleDelay. simpl. event_eqb. repeat split.
Qed.



(** X12: when the poll detects the timeout it clears the mask bit of the
    echo pin and nothing else: the other bits of the mask register, the
    other registers and the globals of the driver are as before, and no
    pin is written. *)
Theorem X12_timeout_disarms_only_echo_pin (board : Board) (s : Sys) :
  sUSValueIsValid s = false ->
  sMicrosAtStartOfPulse s <> 0 ->
  sTimeoutMicros s <= to_ulong (now s - sMicrosAtStartOfPulse s) ->
  let s' := exec (isUSDistanceMeasureFinished board) s in
  echoInterruptEnabled board s' = false /\
  (forall k, 0 <= k < 8 -> k <> digitalPinToPCMSKbit board (sEchoInPin s) ->
     Z.testbit (regs s' (digitalPinToPCMSK board (sEchoInPin s))) k
     = Z.testbit (regs s (digitalPinToPCMSK board (sEchoInPin s))) k) /\
  (forall r, r <> digitalPinToPCMSK board (sEchoInPin s) ->
     regs s' r = regs s r) /\
  driverGlobals s' = driverGlobals s /\
  (exists v,
     effects (isUSDistanceMeasureFinished board) s
     = [RegWrite (digitalPinToPCMSK board (sEchoInPin s)) v]).
Proof.
  intros Hv Hstart Hto s'. subst s'.
  destruct (poll_timeout board s Hv Hstart Hto) as (_ & R2 & _).
  split; [exact R2 |].
  destruct_sys s. subst valid.
  unfold isUSDistanceMeasureFinished, effects, exec, bind, read, micros,
    now, driverGlobals in *. simpl in *.
  apply Z.eqb_neq in Hstart. rewrite Hstart. simpl.
  apply Z.leb_le in Hto. rewrite Hto. simpl.
  repeat split.
  - intros k Hk Hne. rewrite Reg_eqb_refl. apply clear_bit_other; assumption.
  - intros r Hr.
    destruct r, (digitalPinToPCMSK board echo); try congruence; reflexivity.
  - eexists. rewrite skipn_length_app. reflexivity.
Qed.

Lemma X12_timeout_disarms_only_echo_pin_witness :
  sUSValueIsValid
    (set_clock 7000
       (set_sMicrosAtStartOfPulse 1000 (set_sTimeoutMicros 5825 twoPins)))
    = false /\
  echoInterruptEnabled atmega328p
    (exec (isUSDistanceMeasureFinished atmega328p)
       (set_clock 7000
          (set_sMicrosAtStartOfPulse 1000 (set_sTimeoutMicros 5825 twoPins))))
    = false.
Proof.
  set (s := set_clock 7000
              (set_sMicrosAtStartOfPulse 1000
                 (set_sTimeoutMicros 5825 twoPins))).
  assert (Hv : sUSValueIsValid s = false) by reflexivity.
  assert (Hs : sMicrosAtStartOfPulse s <> 0) by (vm_compute; discriminate).
  assert (Ht : sTimeoutMicros s <= to_ulong (now s - sMicrosAtStartOfPulse s))
    by (vm_compute; discriminate).
  split; [exact Hv |].
  exact (proj1 (X12_timeout_disarms_only_echo_pin atmega328p s Hv Hs Ht)).
Defined.

(** A pulse has started and the timeout has not yet elapsed. *)
Lemma waiting_after_rising_edge (board : Board) (d0 p d1 : Z) (s0 : Sys) :
  sUSValueIsValid s0 = false ->
  0 < p ->
  0 <= d1 < sTimeoutMicros s0 ->
  d1 < two32 ->
  eval (isUSDistanceMeasureFinished board)
    (exec (elapse d1) (exec (handlePCInterrupt p) (exec (elapse d0) s0)))
  = false /\
  exec (isUSDistanceMeasureFinished board)
    (exec (elapse d1) (exec (handlePCInterrupt p) (exec (elapse d0) s0)))
  = exec (elapse d1) (exec (handlePCInterrupt p) (exec (elapse d0) s0)).
Proof.
  intros Hv Hp Hd Hd32.
  assert (H : isUSDistanceMeasureFinished board
    (exec (elapse d1) (exec (handlePCInterrupt p) (exec (elapse d0) s0)))
    = (false,
       exec (elapse d1) (exec (handlePCInterrupt p) (exec (elapse d0) s0)))).
  { rewrite (rising_edge_state p) by exact Hp.
    apply poll_waiting.
    - destruct_sys s0. exact Hv.
    - destruct_sys s0. unfold now. simpl.
      rewrite elapsed_since by lia. apply Hd. }
  split.
  - unfold eval. rewrite H. reflexivity.
  - change (snd (isUSDistanceMeasureFinished board
      (exec (elapse d1) (exec (handlePCInterrupt p) (exec (elapse d0) s0))))
      = exec (elapse d1) (exec (handlePCInterrupt p) (exec (elapse d0) s0))).
    rewrite H. reflexivity.
Qed.

(** X13: after a rising edge, a poll made before the stored timeout has
    elapsed since that edge reports not done and changes nothing: the
    state after the poll is the state before it. *)
Theorem X13_poll_before_timeout_waits
    (board : Board) (c d0 p d1 : Z) (s : Sys) :
  0 < p ->
  0 <= d1 < nonBlockingTimeoutMicros c ->
  map fst
    (eval (run board
             [StartMeasurement c; Elapse d0; PinChange p; Elapse d1; Poll]) s)
  = [false] /\
  exec (run board
          [StartMeasurement c; Elapse d0; PinChange p; Elapse d1; Poll]) s
  = exec (run board [StartMeasurement c; Elapse d0; PinChange p; Elapse d1]) s.
Proof.
  intros Hp Hd.
  pose proof (start_state board c s) as HS. cbv zeta in HS.
  destruct HS as (Sv & _ & _ & St & _).
  assert (H16 : nonBlockingTimeoutMicros c < two16).
  { unfold nonBlockingTimeoutMicros. apply to_uint_range. }
  run_steps.
  destruct (waiting_after_rising_edge board d0 p d1
    (exec (startUSDistanceAsCentiMeterWithCentimeterTimeoutNonBlocking board c)
       s)) as [E1 E2].
  - exact Sv.
  - exact Hp.
  - rewrite St. exact Hd.
  - unfold two16, two32 in *. lia.
  - rewrite E1, E2. split; reflexivity.
Qed.

Lemma X13_poll_before_timeout_waits_witness :
  0 < 16 /\ 0 <= 3000 < nonBlockingTimeoutMicros 100 /\
  map fst
    (eval (run atmega328p
             [StartMeasurement 100; Elapse 500; PinChange 16; Elapse 3000;
              Poll]) twoPins)
  = [false].
Proof.
  assert (Hp : 0 < 16) by lia.
  assert (Hd : 0 <= 3000 < nonBlockingTimeoutMicros 100)
    by (vm_compute; split; [discriminate | reflexivity]).
  split; [exact Hp |]. split; [exact Hd |].
  exact (proj1 (X13_poll_before_timeout_waits atmega328p 100 500 16 3000
                  twoPins Hp Hd)).
Defined.

(** X14: the handler measures the width of a pulse correctly across an
    overflow of the microsecond counter: whatever the counter shows at
    the rising edge, a falling edge [delta] microseconds later stores
    [delta] as the pulse duration and sets the validity flag. *)
Theorem X14_pulse_width_survives_counter_overflow
    (board : Board) (p delta : Z) (s : Sys) :
  0 < p ->
  0 <= delta < two32 ->
  sUSPulseMicros
    (exec (run board [PinChange p; Elapse delta; PinChange 0]) s) = delta /\
  sUSValueIsValid
    (exec (run board [PinChange p; Elapse delta; PinChange 0]) s) = true.
Proof.
  intros Hp Hd. run_steps.
  rewrite (rising_edge_state p) by exact Hp.
  rewrite (falling_edge_state 0) by lia.
  rewrite elapse_state. destruct_sys s. unfold now. simpl.
  split; [| reflexivity].
  unfold to_ulong, two32 in *. zdiv.
Qed.

Lemma X14_pulse_width_survives_counter_overflow_witness :
  0 < 16 /\
  sUSPulseMicros
    (exec (run atmega328p [PinChange 16; Elapse 5825; PinChange 0])
       (set_clock 4294967000 twoPins)) = 5825.
Proof.
  assert (Hp : 0 < 16) by lia.
  assert (Hd : 0 <= 5825 < two32) by (unfold two32; lia).
  split; [exact Hp |].
  exact (proj1 (X14_pulse_width_survives_counter_overflow atmega328p 16 5825
                  (set_clock 4294967000 twoPins) Hp Hd)).
Defined.

(** X15: the interrupt service routines look at the echo pin only.  When
    the bit of the echo pin is set in the port input register the
    routine records the current time as the start of the pulse; when it
    is clear the routine stores the time since the recorded start as the
    pulse duration and sets the validity flag; the other pins of the
    port do not matter. *)
Theorem X15_ISR_follows_echo_level
    (board : Board) (portInput : Z) (s : Sys) :
  0 <= digitalPinToPCMSKbit board (sEchoInPin s) < 8 ->
  exec (ISR_PCINT board portInput) s =
  if Z.testbit portInput (digitalPinToPCMSKbit board (sEchoInPin s))
  then set_sMicrosAtStartOfPulse (now s) s
  else set_sUSValueIsValid true
         (set_sUSPulseMicros (to_ulong (now s - sMicrosAtStartOfPulse s)) s).
Proof.
  intros Hb. unfold exec at 1. rewrite ISR_PCINT_level by exact Hb.
  destruct (Z.testbit portInput (digitalPinToPCMSKbit board (sEchoInPin s))).
  - apply rising_edge_state. apply Z.pow_pos_nonneg; lia.
  - apply falling_edge_state. lia.
Qed.

Lemma X15_ISR_follows_echo_level_witness :
  0 <= digitalPinToPCMSKbit atmega328p (sEchoInPin twoPins) < 8 /\
  exec (ISR_PCINT atmega328p 239) twoPins =
  set_sUSValueIsValid true
    (set_sUSPulseMicros
       (to_ulong (now twoPins - sMicrosAtStartOfPulse twoPins)) twoPins).
Proof.
  assert (Hb : 0 <= digitalPinToPCMSKbit atmega328p (sEchoInPin twoPins) < 8)
    by (vm_compute; split; [discriminate | reflexivity]).
  split; [exact Hb |].
  exact (X15_ISR_follows_echo_level atmega328p 239 twoPins Hb).
Defined.

(** X16: only the start clears the validity flag: once it is set, every
    poll made before the next start reports done, whatever edges
    arrive and whatever time passes in between. *)
Theorem X16_done_until_next_start
    (board : Board) (sts : list Step) (s : Sys) :
  sUSValueIsValid s = true ->
  existsb isStart sts = false ->
  Forall (fun r => fst r = true) (eval (run board sts) s) /\
  sUSValueIsValid (exec (run board sts) s) = true.
Proof.
  intros Hv Hs. apply valid_until_next_start; [exact Hv |].
  clear Hv. induction sts as [| st sts IH]; [reflexivity |].
  simpl in Hs. apply orb_false_iff in Hs. destruct Hs as [H1 H2].
  simpl. rewrite (IH H2).
  destruct st; simpl in H1; [discriminate | reflexivity ..].
Qed.

Lemma X16_done_until_next_start_witness :
  sUSValueIsValid (set_sUSValueIsValid true twoPins) = true /\
  Forall (fun r => fst r = true)
    (eval (run atmega328p [Poll; PinChange 16; Elapse 10; PinChange 0; Poll])
       (set_sUSValueIsValid true twoPins)).
Proof.
  assert (Hv : sUSValueIsValid (set_sUSValueIsValid true twoPins) = true)
    by reflexivity.
  split; [exact Hv |].
  exact (proj1 (X16_done_until_next_start atmega328p
                  [Poll; PinChange 16; Elapse 10; PinChange 0; Poll]
                  (set_sUSValueIsValid true twoPins) Hv eq_refl)).
Defined.

(** X17: as long as no edge arrives on the echo pin, no poll ever
    reports done, however much time passes and however often the
    measurement is started again. *)
Theorem X17_no_edge_never_done
    (board : Board) (c : Z) (sts : list Step) (s : Sys) :
  forallb noEdge sts = true ->
  Forall (fun r => fst r = false)
    (eval (run board (StartMeasurement c :: sts)) s).
Proof.
  intros Hq.
  pose proof (start_state board c s) as HS. cbv zeta in HS.
  destruct HS as (Sv & Ss & _).
  rewrite eval_run_cons, eval_step_start, exec_step_start.
  apply (no_edges_never_done board sts _ Sv Ss Hq).
Qed.

Lemma X17_no_edge_never_done_witness :
  forallb noEdge [Elapse 1000000; Poll; StartMeasurement 50; Elapse 70000; Poll]
    = true /\
  Forall (fun r => fst r = false)
    (eval (run atmega328p
             (StartMeasurement 100 ::
                [Elapse 1000000; Poll; StartMeasurement 50; Elapse 70000;
                 Poll])) twoPins).
Proof.
  split; [reflexivity |].
  exact (X17_no_edge_never_done atmega328p 100
           [Elapse 1000000; Poll; StartMeasurement 50; Elapse 70000; Poll]
           twoPins eq_refl).
Defined.

(** ** The sensor test *)

Lemma testUSSensorLoop_round (fuel : nat) (i bound : Z) (s : Sys) :
  i < bound ->
  testUSSensorLoop (S fuel) i bound s =
  testUSSensorLoop fuel (i + 1) bound
    (set_trace (trace s ++ testPulse (sTriggerOutPin s))
       (set_clock (to_ulong (to_ulong (clock s + 582) + 20000)) s)).
Proof.
  intros Hi. apply Z.ltb_lt in Hi.
  simpl testUSSensorLoop. rewrite Hi.
  destruct_sys s. unfold bind, read, testPulse. simpl.
  repeat rewrite <- app_assoc. reflexivity.
Qed.

Lemma testUSSensorLoop_exit (fuel : nat) (i bound : Z) (s : Sys) :
  bound <= i ->
  testUSSensorLoop fuel i bound s = (tt, s).
Proof.
  intros Hi. apply Z.ltb_ge in Hi.
  destruct fuel; simpl; [| rewrite Hi]; reflexivity.
Qed.

(** With enough fuel the loop leaves through its condition, after
    [bound - i] rounds. *)
Lemma testUSSensorLoop_spec (fuel : nat) :
  forall (i bound : Z) (s : Sys),
    (Z.to_nat (bound - i) < fuel)%nat ->
    trace (exec (testUSSensorLoop fuel i bound) s) =
      trace s ++
      concat (repeat (testPulse (sTriggerOutPin s)) (Z.to_nat (bound - i))) /\
    driverGlobals (exec (testUSSensorLoop fuel i bound) s) = driverGlobals s /\
    regs (exec (testUSSensorLoop fuel i bound) s) = regs s.
Proof.
  induction fuel as [| fuel IH]; intros i bound s Hf; [lia |].
  destruct (Z.lt_ge_cases i bound) as [Hlt | Hge].
  - unfold exec. rewrite testUSSensorLoop_round by exact Hlt.
    destruct (IH (i + 1) bound
                (set_trace (trace s ++ testPulse (sTriggerOutPin s))
                   (set_clock (to_ulong (to_ulong (clock s + 582) + 20000)) s)))
      as (T & G & R); [lia |].
    unfold exec in T, G, R. rewrite T, G, R.
    replace (Z.to_nat (bound - i)) with (S (Z.to_nat (bound - (i + 1))))
      by lia.
    destruct_sys s. rewrite <- app_assoc. repeat split.
  - unfold exec. rewrite testUSSensorLoop_exit by exact Hge.
    replace (Z.to_nat (bound - i)) with O by lia.
    simpl. rewrite app_nil_r. repeat split.
Qed.

(** X18: [testUSSensor] sends exactly (aSecondsToTest * 50) mod 65536
    trigger pulses, each 582 microseconds high and followed by a wait of
    20 milliseconds; it never changes a pin direction or a register and
    leaves the globals of the driver alone. *)
Theorem X18_testUSSensor_rounds (aSecondsToTest : Z) (s : Sys) :
  effects (testUSSensor aSecondsToTest) s =
    concat (repeat (testPulse (sTriggerOutPin s))
              (Z.to_nat (to_uint (aSecondsToTest * 50)))) /\
  driverGlobals (exec (testUSSensor aSecondsToTest) s) = driverGlobals s /\
  regs (exec (testUSSensor aSecondsToTest) s) = regs s.
Proof.
  unfold testUSSensor.
  pose proof (to_uint_range (aSecondsToTest * 50)) as Hr.
  destruct (testUSSensorLoop_spec (Z.to_nat two16) 0
              (to_uint (aSecondsToTest * 50)) s) as (T & G & R).
  - unfold two16 in *. lia.
  - rewrite Z.sub_0_r in T.
    split; [apply effects_of_trace; exact T | split; assumption].
Qed.

Lemma length_concat_testPulse (trigger : Z) (n : nat) :
  length (concat (repeat (testPulse trigger) n)) = (4 * n)%nat.
Proof.
  induction n as [| n IH]; [reflexivity |].
  simpl. simpl in IH. rewrite IH. lia.
Qed.

(** X19: for a [uint16_t] argument the test runs the 50 rounds per
    second it is asked for if and only if aSecondsToTest <= 1310; for
    longer tests the [unsigned int] product wraps and the test is
    shorter. *)
Theorem X19_testUSSensor_full_length_iff (aSecondsToTest : Z) (s : Sys) :
  0 <= aSecondsToTest < two16 ->
  (length (effects (testUSSensor aSecondsToTest) s)
   = Z.to_nat (4 * (50 * aSecondsToTest))
   <-> aSecondsToTest <= 1310).
Proof.
  intros Ha. unfold two16 in Ha.
  pose proof (to_uint_range (aSecondsToTest * 50)) as Hr.
  destruct (testUSSensorLoop_spec (Z.to_nat two16) 0
              (to_uint (aSecondsToTest * 50)) s) as (T & _);
    [unfold two16 in *; lia |].
  rewrite Z.sub_0_r in T.
  unfold testUSSensor. rewrite (effects_of_trace _ _ _ T).
  rewrite length_concat_testPulse. clear T Hr.
  unfold to_uint, two16. split; intros H; zdiv.
Qed.

Lemma X19_testUSSensor_full_length_iff_witness :
  0 <= 2 < two16 /\
  (length (effects (testUSSensor 2) twoPins) = Z.to_nat (4 * (50 * 2))
   <-> 2 <= 1310).
Proof.
  assert (Ha : 0 <= 2 < two16) by (unfold two16; lia).
  split; [exact Ha |].
  exact (X19_testUSSensor_full_length_iff 2 twoPins Ha).
Defined.

(** * The application *)

Lemma getPeriod_values (d : Z) :
  getPeriod d = 500 \/ getPeriod d = 1000 \/
  getPeriod d = 2000 \/ getPeriod d = 4000.
Proof.
  unfold getPeriod.
  destruct (150 <=? d); [tauto |].
  destruct (100 <=? d); [tauto |].
  destruct (80 <=? d); tauto.
Qed.

(** X20: the period of the warning never decreases when the obstacle is
    further away, and it is one of 500, 1000, 2000 and 4000
    milliseconds. *)
Theorem X20_getPeriod_monotone (d1 d2 : Z) :
  d1 <= d2 ->
  getPeriod d1 <= getPeriod d2 /\
  In (getPeriod d1) [500; 1000; 2000; 4000].
Proof.
  intros H. split.
  - unfold getPeriod.
    destruct (Z.leb_spec 150 d1), (Z.leb_spec 150 d2); try lia;
      destruct (Z.leb_spec 100 d1), (Z.leb_spec 100 d2); try lia;
      destruct (Z.leb_spec 80 d1), (Z.leb_spec 80 d2); lia.
  - simpl. pose proof (getPeriod_values d1). intuition.
Qed.

Lemma X20_getPeriod_monotone_witness :
  90 <= 120 /\ getPeriod 90 <= getPeriod 120.
Proof.
  assert (H : 90 <= 120) by lia.
  split; [exact H |].
  exact (proj1 (X20_getPeriod_monotone 90 120 H)).
Defined.

(** Every blocking measurement only appends to the trace. *)
Lemma getUSDistance_trace (board : Board) (t : Z) (s : Sys) :
  trace (exec (getUSDistance board t) s) = trace s ++ measureEvents board t s.
Proof.
  unfold measureEvents. destruct (sHCSR04Mode s) eqn:Hm.
  - unfold exec. rewrite getUSDistance_uninitialized by exact Hm.
    simpl. symmetry. apply app_nil_r.
  - destruct_sys s. subst mode. unfold pulseEvents.
    destruct (usesPulseInLong board) eqn:Hb, ep as [| p rest];
      unfold getUSDistance, exec, bind, read; simpl; rewrite Hb; simpl;
      repeat rewrite <- app_assoc; reflexivity.
  - destruct_sys s. subst mode. unfold pulseEvents.
    destruct (usesPulseInLong board) eqn:Hb, ep as [| p rest];
      unfold getUSDistance, exec, bind, read; simpl; rewrite Hb; simpl;
      repeat rewrite <- app_assoc; reflexivity.
Qed.

Lemma delay_state (ms : Z) (s : Sys) :
  exec (delay ms) s =
  set_trace (trace s ++ [DelayMicroseconds (1000 * ms)])
    (set_clock (to_ulong (clock s + 1000 * ms)) s).
Proof. reflexivity. Qed.

(** The distance [loop] works with is the distance returned by the
    driver: the conversion to [int] changes nothing. *)
Lemma measuredCentimeter_range (board : Board) (s : Sys) :
  measuredCentimeter board s =
    eval (getUSDistanceAsCentiMeterWithCentimeterTimeout board 300) s /\
  0 <= measuredCentimeter board s <= 1125.
Proof.
  unfold measuredCentimeter.
  assert (H : 0 <= eval (getUSDistanceAsCentiMeterWithCentimeterTimeout
                          board 300) s <= 1125)
    by (unfold getUSDistanceAsCentiMeterWithCentimeterTimeout;
        apply centimeter_result_range).
  assert (E : to_int
                (eval (getUSDistanceAsCentiMeterWithCentimeterTimeout board 300)
                   s)
              = eval (getUSDistanceAsCentiMeterWithCentimeterTimeout board 300)
                  s)
    by (unfold to_int, two16; zdiv).
  rewrite E. split; [reflexivity | exact H].
Qed.

(** One pass of [loop]: one measurement, the messages, the wait. *)
Lemma loop_pass (board : Board) (a : App) :
  loop board a =
  (tt,
   mkApp
     (exec (delay (to_ulong (getPeriod (measuredCentimeter board (sys a)))))
        (exec (getUSDistanceAsCentiMeterWithCentimeterTimeout board 300)
           (sys a)))
     (console a ++ loopMessages (measuredCentimeter board (sys a)))).
Proof.
  destruct a as [s con].
  unfold loop, measuredCentimeter, loopMessages, abind, lift, eval, exec.
  simpl sys. simpl console.
  destruct (getUSDistanceAsCentiMeterWithCentimeterTimeout board 300 s)
    as [cm s1].
  simpl fst. simpl snd. unfold sendMessage, sendSound, abind, say, lift.
  destruct (200 <=? to_int cm); simpl;
    repeat rewrite <- app_assoc; reflexivity.
Qed.

Lemma to_ulong_getPeriod (d : Z) : to_ulong (getPeriod d) = getPeriod d.
Proof.
  apply to_ulong_small. unfold two32.
  destruct (getPeriod_values d) as [H | [H | [H | H]]]; rewrite H; lia.
Qed.

Lemma loop_said (board : Board) (a : App) :
  said (loop board) a = loopMessages (measuredCentimeter board (sys a)).
Proof.
  unfold said, aexec. rewrite loop_pass. simpl. apply skipn_length_app.
Qed.

Lemma loop_effects (board : Board) (a : App) :
  appEffects (loop board) a =
  measureEvents board 17475 (sys a) ++
  [DelayMicroseconds (1000 * getPeriod (measuredCentimeter board (sys a)))].
Proof.
  unfold appEffects, aexec. rewrite loop_pass. simpl sys.
  rewrite delay_state. simpl trace.
  unfold getUSDistanceAsCentiMeterWithCentimeterTimeout.
  rewrite getUSDistanceAsCentiMeter_exec, getUSDistance_trace.
  rewrite to_ulong_getPeriod, <- app_assoc.
  change (tTimeoutMicros 300) with 17475.
  apply skipn_length_app.
Qed.

Lemma soundPlayed_loopMessages (d : Z) :
  soundPlayed (loopMessages d) = (d <? 200).
Proof.
  unfold loopMessages, soundPlayed.
  destruct (Z.leb_spec 200 d) as [H | H].
  - replace (d <? 200) with false by (symmetry; apply Z.ltb_ge; exact H).
    reflexivity.
  - replace (d <? 200) with true by (symmetry; apply Z.ltb_lt; exact H).
    reflexivity.
Qed.

(** X21: in one pass of [loop] the warning sound is played exactly when
    the distance returned by the driver is below 200 centimeters; the
    messages sent are those of [loopMessages] for that distance. *)
Theorem X21_loop_sound_iff_below_200 (board : Board) (a : App) :
  said (loop board) a = loopMessages (measuredCentimeter board (sys a)) /\
  soundPlayed (said (loop board) a)
  = (eval (getUSDistanceAsCentiMeterWithCentimeterTimeout board 300) (sys a)
     <? 200).
Proof.
  rewrite loop_said, soundPlayed_loopMessages.
  destruct (measuredCentimeter_range board (sys a)) as [E _].
  rewrite E. split; reflexivity.
Qed.

(** X22: when the measurement yields 0 (no echo within the timeout, or a
    pulse too short to make one centimeter), [loop] plays the warning
    sound and then waits the shortest period, 500 milliseconds. *)
Theorem X22_loop_no_echo_sounds_alarm (board : Board) (a : App) :
  eval (getUSDistanceAsCentiMeterWithCentimeterTimeout board 300) (sys a) = 0 ->
  soundPlayed (said (loop board) a) = true /\
  appEffects (loop board) a =
    measureEvents board 17475 (sys a) ++ [DelayMicroseconds 500000].
Proof.
  intros H0.
  destruct (measuredCentimeter_range board (sys a)) as [E _].
  rewrite loop_said, soundPlayed_loopMessages, loop_effects, E, H0.
  split; reflexivity.
Qed.

Lemma X22_loop_no_echo_sounds_alarm_witness :
  eval (getUSDistanceAsCentiMeterWithCentimeterTimeout atmega328p 300)
    (sys (mkApp (set_echoPulses [0] twoPins) [])) = 0 /\
  soundPlayed (said (loop atmega328p) (mkApp (set_echoPulses [0] twoPins) []))
    = true.
Proof.
  assert (H0 : eval (getUSDistanceAsCentiMeterWithCentimeterTimeout
                       atmega328p 300)
                 (sys (mkApp (set_echoPulses [0] twoPins) [])) = 0)
    by reflexivity.
  split; [exact H0 |].
  exact (proj1 (X22_loop_no_echo_sounds_alarm atmega328p
                  (mkApp (set_echoPulses [0] twoPins) []) H0)).
Defined.

(** X23: if the pins were never initialised, [loop] never triggers the
    sensor: its only hardware access is the final wait of 500
    milliseconds, and it plays the warning sound on every pass. *)
Theorem X23_loop_uninitialized (board : Board) (a : App) :
  sHCSR04Mode (sys a) = HCSR04_MODE_UNITITIALIZED ->
  appEffects (loop board) a = [DelayMicroseconds 500000] /\
  said (loop board) a = loopMessages 0 /\
  soundPlayed (said (loop board) a) = true /\
  sHCSR04Mode (sys (aexec (loop board) a)) = HCSR04_MODE_UNITITIALIZED.
Proof.
  intros Hm.
  assert (R : getUSDistanceAsCentiMeterWithCentimeterTimeout board 300 (sys a)
              = (0, sys a)).
  { unfold getUSDistanceAsCentiMeterWithCentimeterTimeout,
      getUSDistanceAsCentiMeter, bind.
    rewrite getUSDistance_uninitialized by exact Hm. reflexivity. }
  assert (D : measuredCentimeter board (sys a) = 0).
  { unfold measuredCentimeter, eval. rewrite R. reflexivity. }
  rewrite loop_said, loop_effects, D.
  unfold measureEvents. rewrite Hm.
  repeat split.
  unfold aexec. rewrite loop_pass. simpl sys.
  unfold exec at 2. rewrite R. simpl snd. rewrite delay_state.
  simpl. exact Hm.
Qed.

Lemma X23_loop_uninitialized_witness :
  sHCSR04Mode (sys (mkApp powerOn [])) = HCSR04_MODE_UNITITIALIZED /\
  appEffects (loop atmega328p) (mkApp powerOn []) = [DelayMicroseconds 500000].
Proof.
  assert (Hm : sHCSR04Mode (sys (mkApp powerOn []))
               = HCSR04_MODE_UNITITIALIZED) by reflexivity.
  split; [exact Hm |].
  exact (proj1 (X23_loop_uninitialized atmega328p (mkApp powerOn []) Hm)).
Defined.

(** X24: whenever a pass of [loop] plays no sound, it ends with the
    longest wait, 4000 milliseconds. *)
Theorem X24_loop_silent_waits_4000 (board : Board) (a : App) :
  soundPlayed (said (loop board) a) = false ->
  appEffects (loop board) a =
    measureEvents board 17475 (sys a) ++ [DelayMicroseconds 4000000].
Proof.
  rewrite loop_said, soundPlayed_loopMessages, loop_effects.
  intros H. apply Z.ltb_ge in H.
  unfold getPeriod.
  replace (150 <=? measuredCentimeter board (sys a)) with true
    by (symmetry; apply Z.leb_le; lia).
  reflexivity.
Qed.

Lemma X24_loop_silent_waits_4000_witness :
  soundPlayed
    (said (loop atmega328p) (mkApp (set_echoPulses [14000] twoPins) []))
    = false /\
  appEffects (loop atmega328p) (mkApp (set_echoPulses [14000] twoPins) [])
  = measureEvents atmega328p 17475
      (sys (mkApp (set_echoPulses [14000] twoPins) []))
    ++ [DelayMicroseconds 4000000].
Proof.
  assert (H : soundPlayed
                (said (loop atmega328p)
                   (mkApp (set_echoPulses [14000] twoPins) [])) = false)
    by (vm_compute; reflexivity).
  split; [exact H |].
  exact (X24_loop_silent_waits_4000 atmega328p
           (mkApp (set_echoPulses [14000] twoPins) []) H).
Defined.

Lemma setup_radar_state (a : App) :
  sys (aexec setup_radar a) =
  exec (delay 1000)
    (exec (initUSDistancePins TRIGGER_OUT_PIN ECHO_IN_PIN) (sys a)) /\
  console (aexec setup_radar a) = console a.
Proof.
  destruct a as [s con]. unfold setup_radar, aexec, abind, lift, exec.
  change (sys (mkApp s con)) with s.
  destruct (initUSDistancePins TRIGGER_OUT_PIN ECHO_IN_PIN s) as [u s1].
  split; reflexivity.
Qed.

(** X25: [setup_radar] followed by [loop].  From any state, after the
    set-up a pass of [loop] raises pin 5 for 10 microseconds, then
    measures the pulse on pin 4 with a timeout of 17475 microseconds,
    then waits the period that belongs to the pulse the hardware
    reports; between 0 and 1125 centimeters are reported. *)
Theorem X25_setup_then_loop (board : Board) (a : App) :
  appEffects (loop board) (aexec setup_radar a) =
    [DigitalWrite 5 HIGH; DelayMicroseconds 10; DigitalWrite 5 LOW]
    ++ pulseEvents board 4 17475
    ++ [DelayMicroseconds
          (1000 * getPeriod
                    (getCentimeterFromUSMicroSeconds
                       (to_uint (pendingPulse (sys a)))))] /\
  said (loop board) (aexec setup_radar a) =
    loopMessages
      (getCentimeterFromUSMicroSeconds (to_uint (pendingPulse (sys a)))) /\
  0 <= getCentimeterFromUSMicroSeconds (to_uint (pendingPulse (sys a)))
    <= 1125.
Proof.
  destruct (setup_radar_state a) as [Hs _].
  assert (Hi : exec (initUSDistancePins TRIGGER_OUT_PIN ECHO_IN_PIN) (sys a) =
               set_sHCSR04Mode HCSR04_MODE_USE_2_PINS
                 (set_trace (trace (sys a) ++ [PinMode 5 OUTPUT;
                                               PinMode 4 INPUT])
                    (set_sEchoInPin 4 (set_sTriggerOutPin 5 (sys a))))).
  { destruct (sys a) as
      [trig echo mode cm pulse valid start timeout clk rg ep tr].
    unfold initUSDistancePins, exec, bind, modify. simpl.
    rewrite <- app_assoc. reflexivity. }
  rewrite delay_state, Hi in Hs.
  assert (Hm : sHCSR04Mode (sys (aexec setup_radar a))
               = HCSR04_MODE_USE_2_PINS) by (rewrite Hs; reflexivity).
  assert (Hp : pendingPulse (sys (aexec setup_radar a)) = pendingPulse (sys a))
    by (rewrite Hs; reflexivity).
  assert (D : measuredCentimeter board (sys (aexec setup_radar a)) =
              getCentimeterFromUSMicroSeconds (to_uint (pendingPulse (sys a)))).
  { destruct (measuredCentimeter_range board (sys (aexec setup_radar a)))
      as [E _].
    rewrite E. unfold getUSDistanceAsCentiMeterWithCentimeterTimeout.
    rewrite getUSDistanceAsCentiMeter_eval.
    destruct (getUSDistance_result board (tTimeoutMicros 300)
                (sys (aexec setup_radar a))) as (R & _).
    - rewrite Hm. discriminate.
    - rewrite R, Hp. reflexivity. }
  rewrite loop_said, loop_effects, D.
  split; [| split].
  - unfold measureEvents. rewrite Hm. rewrite Hs. simpl.
    reflexivity.
  - reflexivity.
  - rewrite <- D.
    apply (measuredCentimeter_range board (sys (aexec setup_radar a))).
Qed.
